(** * Fitness-tracker module [homework.py]: a shallow embedding and its properties

    The program computes distance, mean speed and spent calories for three
    kinds of training (running, sports walking, swimming) from sensor
    readings, and renders them as a text line.

    The embedding follows the Python source:
    - numbers are Python [int]s (unbounded, [Z]) and [float]s (IEEE-754
      binary64, Rocq's primitive [float]), with Python's coercion rules;
    - exceptions are values of an error monad;
    - the three [@dataclass] classes are built by the positional binding of
      arguments to fields that the generated [__init__] performs;
    - strings are byte strings holding the UTF-8 text of the source. *)

From Stdlib Require Import ZArith Lia List Bool String Ascii Floats DecimalString.
Import ListNotations.

Set Warnings "-inexact-float".

Local Open Scope Z_scope.

(* ===================================================================== *)
(** * Python runtime: exceptions, numbers, formatting                     *)
(* ===================================================================== *)

Module Py.

(** ** Exceptions and the error monad *)

Inductive exn : Type :=
| TypeError
| KeyError (msg : string)
| AttributeError
| NotImplementedError
| ZeroDivisionError
| OverflowError.

Inductive result (A : Type) : Type :=
| Ok (a : A)
| Raise (e : exn).
Arguments Ok {A} a.
Arguments Raise {A} e.

Definition bind {A B : Type} (c : result A) (k : A -> result B) : result B :=
  match c with
  | Ok a => k a
  | Raise e => Raise e
  end.

Declare Scope py_scope.
Delimit Scope py_scope with py.
Notation "x <- c ;; k" := (bind c (fun x => k))
  (at level 61, c at next level, right associativity) : py_scope.

(** ** Numbers: [int] and [float] *)

Inductive num : Type :=
| PyInt (z : Z)
| PyFloat (f : float).

(** [isinf (f)]. *)
Definition is_inf (f : float) : bool := is_infinity f.

(** [float(z)], as [PyLong_AsDouble]: the nearest binary64 value, ties to
    even; [OverflowError] when that is beyond the largest finite float. *)
Definition int_to_float (z : Z) : result float :=
  let f := SF2Prim (binary_normalize prec emax z 0 false) in
  if is_inf f then Raise OverflowError else Ok f.

(** The C double of an operand ([CONVERT_TO_DOUBLE]). *)
Definition as_float (v : num) : result float :=
  match v with
  | PyInt z => int_to_float z
  | PyFloat f => Ok f
  end.

(** Binary operators coerce both operands to [float] unless both are [int];
    the left operand is converted first. *)
Definition arith (fi : Z -> Z -> result num) (ff : float -> float -> result num)
    (a b : num) : result num :=
  match a, b with
  | PyInt x, PyInt y => fi x y
  | _, _ => (x <- as_float a ;; y <- as_float b ;; ff x y)%py
  end.

Definition py_add : num -> num -> result num :=
  arith (fun x y => Ok (PyInt (x + y))) (fun x y => Ok (PyFloat (x + y)%float)).

Definition py_sub : num -> num -> result num :=
  arith (fun x y => Ok (PyInt (x - y))) (fun x y => Ok (PyFloat (x - y)%float)).

Definition py_mul : num -> num -> result num :=
  arith (fun x y => Ok (PyInt (x * y))) (fun x y => Ok (PyFloat (x * y)%float)).

(** [int / int], as [long_true_divide]: the correctly rounded quotient of the
    two integers; a zero numerator takes the sign of the divisor. *)
Definition int_true_divide (x y : Z) : result num :=
  if y =? 0 then Raise ZeroDivisionError
  else if x =? 0 then Ok (PyFloat (if y <? 0 then neg_zero else zero))
  else
    let '(q, e, l) := SFdiv_core_binary prec emax (Z.abs x) 0 (Z.abs y) 0 in
    let f := SF2Prim (binary_round_aux prec emax (xorb (x <? 0) (y <? 0)) q e l) in
    if is_inf f then Raise OverflowError else Ok (PyFloat f).

(** [float / float], as [float_div]. *)
Definition float_true_divide (x y : float) : result num :=
  if (y =? 0)%float then Raise ZeroDivisionError
  else Ok (PyFloat (x / y)%float).

Definition py_truediv : num -> num -> result num :=
  arith int_true_divide float_true_divide.

(** C's [fmod]: the exact remainder of [x / y] truncated toward zero, with the
    sign of [x]. *)
Definition fmod (x y : float) : float :=
  match Prim2SF x, Prim2SF y with
  | S754_nan, _ | _, S754_nan => nan
  | S754_infinity _, _ => nan
  | _, S754_zero _ => nan
  | S754_zero _, _ => x
  | S754_finite _ _ _, S754_infinity _ => x
  | S754_finite sx mx ex, S754_finite _ my ey =>
      let e := Z.min ex ey in
      let r := Z.modulo (Z.pos mx * 2 ^ (ex - e)) (Z.pos my * 2 ^ (ey - e)) in
      SF2Prim (binary_normalize prec emax (if sx then - r else r) e sx)
  end.

(** C's [floor]. *)
Definition floor (x : float) : float :=
  match Prim2SF x with
  | S754_finite s m e =>
      if 0 <=? e then x
      else SF2Prim (binary_normalize prec emax
                      ((if s then Z.neg m else Z.pos m) / 2 ^ (- e)) 0 s)
  | _ => x
  end.

(** C's [copysign (0.0, x)]. *)
Definition zero_with_sign_of (x : float) : float :=
  if get_sign x then neg_zero else zero.

(** C truth value of a double: [x != 0.0]. *)
Definition truthy (x : float) : bool := negb (x =? 0)%float.

(** The quotient part of [_float_div_mod (vx, wx)], for [wx] nonzero. *)
Definition float_div_mod_floordiv (vx wx : float) : float :=
  let mod_ := fmod vx wx in
  let div := ((vx - mod_) / wx)%float in
  let div :=
    if truthy mod_ && negb (Bool.eqb (wx <? 0)%float (mod_ <? 0)%float)
    then (div - 1)%float else div in
  if truthy div then
    let floordiv := floor div in
    if (0.5 <? div - floordiv)%float then (floordiv + 1)%float else floordiv
  else zero_with_sign_of (vx / wx)%float.

(** [float // float], as [float_floor_div]. *)
Definition float_floor_div (vx wx : float) : result num :=
  if (wx =? 0)%float then Raise ZeroDivisionError
  else Ok (PyFloat (float_div_mod_floordiv vx wx)).

Definition int_floor_div (x y : Z) : result num :=
  if y =? 0 then Raise ZeroDivisionError else Ok (PyInt (x / y)).

Definition py_floordiv : num -> num -> result num :=
  arith int_floor_div float_floor_div.

(** [x ** 2] for a float: [float_pow] calls C's [pow (x, 2.0)], taken here as
    the correctly rounded square, and reports a range error when a finite
    operand gives an infinite result. *)
Definition pow2_overflows (f : float) : bool :=
  is_inf (f * f)%float && negb (is_inf f).

Definition py_pow2 (x : num) : result num :=
  match x with
  | PyInt z => Ok (PyInt (z * z))
  | PyFloat f =>
      if pow2_overflows f then Raise OverflowError
      else Ok (PyFloat (f * f)%float)
  end.

(** [v == 0]. *)
Definition is_zero (v : num) : bool :=
  match v with
  | PyInt z => z =? 0
  | PyFloat f => (f =? 0)%float
  end.

(** ** Strings and the [.3f] format *)

Definition str_of_nonneg (n : Z) : string :=
  NilZero.string_of_uint (N.to_uint (Z.to_N n)).

Definition digit (d : Z) : ascii := ascii_of_nat (48 + Z.to_nat d).

Definition three_digits (r : Z) : string :=
  String (digit (r / 100)) (String (digit (r / 10 mod 10))
    (String (digit (r mod 10)) EmptyString)).

(** The integer nearest to [n / d], ties to the even one ([0 <= n], [0 < d]). *)
Definition round_half_even (n d : Z) : Z :=
  let q := n / d in
  match 2 * (n mod d) ?= d with
  | Lt => q
  | Eq => if Z.even q then q else q + 1
  | Gt => q + 1
  end.

(** The number of thousandths nearest to the exact value [m * 2^e]. *)
Definition thousandths (m : positive) (e : Z) : Z :=
  if 0 <=? e then Z.pos m * 2 ^ e * 1000
  else round_half_even (Z.pos m * 1000) (2 ^ (- e)).

Definition sign_str (s : bool) : string := if s then "-" else EmptyString.

(** [format (x, '.3f')] of a float: the exact binary value rounded to three
    decimals, ties to even, as [PyOS_double_to_string] does. *)
Definition format_float_3f (x : float) : string :=
  match Prim2SF x with
  | S754_nan => "nan"
  | S754_infinity s => sign_str s ++ "inf"
  | S754_zero s => sign_str s ++ "0.000"
  | S754_finite s m e =>
      let n := thousandths m e in
      sign_str s ++ str_of_nonneg (n / 1000) ++ "." ++ three_digits (n mod 1000)
  end.

(** [f"{v:.3f}"]: an [int] is converted to [float] first. *)
Definition format_3f (v : num) : result string :=
  (f <- as_float v ;; Ok (format_float_3f f))%py.

(** [needle in hay] for strings. *)
Fixpoint contains (needle hay : string) : bool :=
  prefix needle hay ||
  match hay with
  | EmptyString => false
  | String _ rest => contains needle rest
  end.

(** [sep.join(parts)]. *)
Definition join (sep : string) (parts : list string) : string :=
  String.concat sep parts.

End Py.

(* ===================================================================== *)
(** * The [@dataclass] decorator: fields and the generated [__init__]     *)
(* ===================================================================== *)

Module Dataclass.
Import Py.

(** An annotated class attribute; [fdefault] is its class-level value, if
    it has one.  Attributes without an annotation are not fields. *)
Record field : Type := Field { fname : string; fdefault : option num }.

Definition required (name : string) : field := Field name None.
Definition default (name : string) (v : num) : field := Field name (Some v).

Definition declares (fs : list field) (name : string) : bool :=
  existsb (fun g => String.eqb (fname g) name) fs.

(** A field redeclared in a subclass keeps the place it had in the base
    class; a new one goes to the end. *)
Definition add_field (fs : list field) (f : field) : list field :=
  if declares fs (fname f)
  then map (fun g => if String.eqb (fname g) (fname f) then f else g) fs
  else fs ++ [f].

(** The fields of a class: those of its base class, then its own. *)
Definition fields (base own : list field) : list field :=
  fold_left add_field own base.

(** [__init__ (self, *args)]: positional arguments fill the fields in order,
    the fields left over take their defaults; too many arguments, or a
    field without a default left over, is a [TypeError]. *)
Fixpoint init (fs : list field) (args : list num) : result (list num) :=
  match fs, args with
  | [], [] => Ok []
  | [], _ :: _ => Raise TypeError
  | f :: fs', a :: args' => (vs <- init fs' args' ;; Ok (a :: vs))%py
  | f :: fs', [] =>
      match fdefault f with
      | Some d => (vs <- init fs' [] ;; Ok (d :: vs))%py
      | None => Raise TypeError
      end
  end.

End Dataclass.

(* ===================================================================== *)
(** * The program                                                         *)
(* ===================================================================== *)

Import Py.
Local Open Scope py_scope.
Local Open Scope string_scope.

(** ** class InfoMessage *)

Record InfoMessage : Type := {
  training_type : string;
  duration : num;
  distance : num;
  speed : num;
  calories : num
}.

Definition get_message (self : InfoMessage) : result string :=
  d <- format_3f (duration self) ;;
  s <- format_3f (distance self) ;;
  v <- format_3f (speed self) ;;
  c <- format_3f (calories self) ;;
  Ok ("Тип тренировки: " ++ training_type self ++ "; "
      ++ "Длительность: " ++ d ++ " ч.; "
      ++ "Дистанция: " ++ s ++ " км; "
      ++ "Ср. скорость: " ++ v ++ " км/ч; "
      ++ "Потрачено ккал: " ++ c ++ ".").

(** ** class Training and its subclasses

    An instance is its class together with the values of the class's
    dataclass fields, in field order. *)

Inductive Training : Type :=
| BaseTraining (action duration weight : num)
| Running (action duration weight COEFF_TO_SPEED SUBTRAHEND_CALORIES : num)
| SportsWalking (action duration weight height : num)
| Swimming (action duration weight length_pool count_pool
            LEN_STEP COEFF_SPEED COEFF_TO_WEIGHT : num).

(** [type (self).__name__] *)
Definition class_name (self : Training) : string :=
  match self with
  | BaseTraining _ _ _ => "Training"
  | Running _ _ _ _ _ => "Running"
  | SportsWalking _ _ _ _ => "SportsWalking"
  | Swimming _ _ _ _ _ _ _ _ => "Swimming"
  end.

(** *** Dataclass fields, class by class *)

Definition Training_fields : list Dataclass.field :=
  Dataclass.fields []
    [Dataclass.required "action";
     Dataclass.required "duration";
     Dataclass.required "weight"].

Definition Running_fields : list Dataclass.field :=
  Dataclass.fields Training_fields
    [Dataclass.default "COEFF_TO_SPEED" (PyInt 18);
     Dataclass.default "SUBTRAHEND_CALORIES" (PyInt 20)].

Definition SportsWalking_fields : list Dataclass.field :=
  Dataclass.fields Training_fields
    [Dataclass.required "action";
     Dataclass.required "duration";
     Dataclass.required "weight";
     Dataclass.required "height"].

Definition Swimming_fields : list Dataclass.field :=
  Dataclass.fields Training_fields
    [Dataclass.required "action";
     Dataclass.required "duration";
     Dataclass.required "weight";
     Dataclass.required "length_pool";
     Dataclass.required "count_pool";
     Dataclass.default "LEN_STEP" (PyFloat 1.38);
     Dataclass.default "COEFF_SPEED" (PyFloat 1.1);
     Dataclass.default "COEFF_TO_WEIGHT" (PyInt 2)].

(** *** Constructors: the call [cls] applied to the unpacked [data] *)

Definition new_Training (data : list num) : result Training :=
  vs <- Dataclass.init Training_fields data ;;
  match vs with
  | [a; d; w] => Ok (BaseTraining a d w)
  | _ => Raise TypeError
  end.

Definition new_Running (data : list num) : result Training :=
  vs <- Dataclass.init Running_fields data ;;
  match vs with
  | [a; d; w; c; s] => Ok (Running a d w c s)
  | _ => Raise TypeError
  end.

Definition new_SportsWalking (data : list num) : result Training :=
  vs <- Dataclass.init SportsWalking_fields data ;;
  match vs with
  | [a; d; w; h] => Ok (SportsWalking a d w h)
  | _ => Raise TypeError
  end.

Definition new_Swimming (data : list num) : result Training :=
  vs <- Dataclass.init Swimming_fields data ;;
  match vs with
  | [a; d; w; l; n; ls; cs; cw] => Ok (Swimming a d w l n ls cs cw)
  | _ => Raise TypeError
  end.

(** *** Attributes *)

Definition action (self : Training) : num :=
  match self with
  | BaseTraining a _ _ | Running a _ _ _ _ | SportsWalking a _ _ _
  | Swimming a _ _ _ _ _ _ _ => a
  end.

Definition duration_of (self : Training) : num :=
  match self with
  | BaseTraining _ d _ | Running _ d _ _ _ | SportsWalking _ d _ _
  | Swimming _ d _ _ _ _ _ _ => d
  end.

Definition weight (self : Training) : num :=
  match self with
  | BaseTraining _ _ w | Running _ _ w _ _ | SportsWalking _ _ w _
  | Swimming _ _ w _ _ _ _ _ => w
  end.

(** Class attributes of [Training] (not annotated, so not fields). *)
Definition M_IN_KM : num := PyInt 1000.
Definition Training_LEN_STEP : num := PyFloat 0.65.
Definition MIN_IN_H : num := PyInt 60.

(** Class attributes of [SportsWalking]. *)
Definition COEFF_OF_WEIGHT : num := PyFloat 0.035.
Definition COEFF_OF_ACCELERATION : num := PyFloat 0.029.

(** [self.LEN_STEP]: the instance attribute of a [Swimming] object, the class
    attribute of [Training] for the others. *)
Definition LEN_STEP (self : Training) : num :=
  match self with
  | Swimming _ _ _ _ _ ls _ _ => ls
  | _ => Training_LEN_STEP
  end.

(** *** Methods *)

Definition get_distance (self : Training) : result num :=
  x <- py_mul (action self) (LEN_STEP self) ;;
  py_truediv x M_IN_KM.

Definition Training_get_mean_speed (self : Training) : result num :=
  d <- get_distance self ;;
  py_truediv d (duration_of self).

Definition Swimming_get_mean_speed (duration length_pool count_pool : num)
    : result num :=
  x <- py_mul length_pool count_pool ;;
  y <- py_truediv x M_IN_KM ;;
  py_truediv y duration.

Definition get_mean_speed (self : Training) : result num :=
  match self with
  | Swimming _ d _ l n _ _ _ => Swimming_get_mean_speed d l n
  | _ => Training_get_mean_speed self
  end.

Definition get_spent_calories (self : Training) : result num :=
  match self with
  | BaseTraining _ _ _ => Raise NotImplementedError
  | Running _ d w c s =>
      v <- get_mean_speed self ;;
      x <- py_mul c v ;;
      x <- py_sub x s ;;
      x <- py_mul x w ;;
      x <- py_truediv x M_IN_KM ;;
      x <- py_mul x d ;;
      py_mul x MIN_IN_H
  | SportsWalking _ d w h =>
      x <- py_mul COEFF_OF_WEIGHT w ;;
      v <- get_mean_speed self ;;
      y <- py_pow2 v ;;
      y <- py_floordiv y h ;;
      y <- py_mul y COEFF_OF_ACCELERATION ;;
      y <- py_mul y w ;;
      x <- py_add x y ;;
      x <- py_mul x d ;;
      py_mul x MIN_IN_H
  | Swimming _ _ w _ _ _ cs cw =>
      v <- get_mean_speed self ;;
      x <- py_add v cs ;;
      x <- py_mul x cw ;;
      py_mul x w
  end.

Definition show_training_info (self : Training) : result InfoMessage :=
  s <- get_distance self ;;
  v <- get_mean_speed self ;;
  c <- get_spent_calories self ;;
  Ok {| training_type := class_name self;
        duration := duration_of self;
        distance := s;
        speed := v;
        calories := c |}.

(** ** Module level *)

Definition CONFORMITY_TO_CLASSES : list (string * (list num -> result Training)) :=
  [("SWM", new_Swimming); ("RUN", new_Running); ("WLK", new_SportsWalking)].

Definition AVAILABLE_CODES_STR : string :=
  join ", " (map fst CONFORMITY_TO_CLASSES).

(** [d.get (key)] on a dict kept in insertion order. *)
Fixpoint lookup {A : Type} (key : string) (d : list (string * A)) : option A :=
  match d with
  | [] => None
  | (k, v) :: rest => if String.eqb key k then Some v else lookup key rest
  end.

Definition read_package (workout_type : string) (data : list num)
    : result Training :=
  match lookup workout_type CONFORMITY_TO_CLASSES with
  | None => Raise (KeyError "f'Неизвестный код {workout_type}'")
  | Some cls => cls data
  end.

(** Standard output: the lines printed so far. *)
Definition stdout : Type := list string.

(** [training.show_training_info]: the attribute lookup, which fails on
    [None]. *)
Definition getattr_show_training_info (training : option Training)
    : result (unit -> result InfoMessage) :=
  match training with
  | None => Raise AttributeError
  | Some t => Ok (fun _ => show_training_info t)
  end.

Definition is_None (training : option Training) : bool :=
  match training with None => true | Some _ => false end.

(** [main]: the lines it prints and how it ends. *)
Definition main (training : option Training) : stdout * result unit :=
  if is_None training then
    match (m <- getattr_show_training_info training ;;
           info <- m tt ;;
           get_message info) with
    | Ok line => ([line], Raise AttributeError)
    | Raise e => ([], Raise e)
    end
  else ([], Raise AttributeError).

(** The script body: [main (read_package (...))] for each package, stopping
    at the first exception. *)
Definition packages : list (string * list num) :=
  [("SWM", [PyInt 720; PyInt 1; PyInt 80; PyInt 25; PyInt 40]);
   ("RUN", [PyInt 15000; PyInt 1; PyInt 75]);
   ("WLK", [PyInt 9000; PyInt 1; PyInt 75; PyInt 180])].

Fixpoint run (ps : list (string * list num)) (out : stdout) : stdout * result unit :=
  match ps with
  | [] => (out, Ok tt)
  | (workout_type, data) :: rest =>
      match read_package workout_type data with
      | Raise e => (out, Raise e)
      | Ok t =>
          match main (Some t) with
          | (lines, Ok _) => run rest (out ++ lines)%list
          | (lines, Raise e) => ((out ++ lines)%list, Raise e)
          end
      end
  end.


(* ===================================================================== *)
(** * Notions used to state the properties                                *)
(* ===================================================================== *)

(** ** Python expressions

    An operator applied to two expressions: the left one is evaluated, then
    the right one, then the operator is applied; the first exception ends
    the evaluation.  With these the formulas of the specification are
    written as they read. *)

Definition lift2 (op : num -> num -> result num) (x y : result num)
    : result num :=
  a <- x ;; b <- y ;; op a b.

(** Operands: a value at hand, an int literal, a float literal. *)
Definition val (v : num) : result num := Ok v.
Definition lit_int (z : Z) : result num := Ok (PyInt z).


Declare Scope pyexpr_scope.
Delimit Scope pyexpr_scope with pyexpr.
Notation "x * y" := (lift2 py_mul x y) : pyexpr_scope.
Notation "x / y" := (lift2 py_truediv x y) : pyexpr_scope.
Notation "x // y" := (lift2 py_floordiv x y)
  (at level 40, left associativity) : pyexpr_scope.
Notation "x + y" := (lift2 py_add x y) : pyexpr_scope.
Notation "x - y" := (lift2 py_sub x y) : pyexpr_scope.

(** The formulas of the specification, section 4.1. *)

Definition spec_distance (action_count step_length : num) : result num :=
  (val action_count * val step_length / lit_int 1000)%pyexpr.

Definition spec_mean_speed (distance_ : result num) (duration_hours : num)
    : result num :=
  (distance_ / val duration_hours)%pyexpr.

Definition spec_running_calories (mean_speed : result num)
    (weight_kg duration_hours : num) : result num :=
  ((lit_int 18 * mean_speed - lit_int 20) * val weight_kg / lit_int 1000
   * val duration_hours * lit_int 60)%pyexpr.




(** ** Other notions *)

(** The float a computation returns ([nan] when it returns none). *)
Definition returned_float (c : result num) : float :=
  match c with
  | Ok (PyFloat f) => f
  | _ => nan
  end.

(** The records that the three sample packages of the script build. *)
Definition swim_scenario : Training :=
  Swimming (PyInt 720) (PyInt 1) (PyInt 80) (PyInt 25) (PyInt 40)
           (PyFloat 1.38) (PyFloat 1.1) (PyInt 2).

Definition run_scenario : Training :=
  Running (PyInt 15000) (PyInt 1) (PyInt 75) (PyInt 18) (PyInt 20).

Definition walk_scenario : Training :=
  SportsWalking (PyInt 9000) (PyInt 1) (PyInt 75) (PyInt 180).

(** The line for [t]: the message of what [show_training_info] returns. *)
Definition message_of (t : Training) : result string :=
  info <- show_training_info t ;; get_message info.

(** The template of the report line, with its five holes. *)
Definition report_line (type_ duration_ distance_ speed_ calories_ : string)
    : string :=
  "Тип тренировки: " ++ type_
  ++ "; Длительность: " ++ duration_
  ++ " ч.; Дистанция: " ++ distance_
  ++ " км; Ср. скорость: " ++ speed_
  ++ " км/ч; Потрачено ккал: " ++ calories_ ++ ".".

(** A decimal digit character, and its value. *)
Definition is_digit (c : ascii) : bool :=
  (48 <=? nat_of_ascii c)%nat && (nat_of_ascii c <=? 57)%nat.

Definition digit_value (c : ascii) : Z := Z.of_nat (nat_of_ascii c) - 48.

(** [n] thousandths is a nearest multiple of 0.001 to the value [m * 2^e]:
    [|1000 * m * 2^e - n| <= 1/2], written over the integers after scaling
    by [2^k], [k = max 0 (-e)]. *)
Definition nearest_thousandth (m : positive) (e n : Z) : Prop :=
  let k := Z.max 0 (- e) in
  0 <= n /\
  Z.abs (2 * (1000 * Z.pos m * 2 ^ (e + k)) - 2 * n * 2 ^ k) <= 2 ^ k.

(** [s] renders the value of sign [sign] and magnitude [m * 2^e] with three
    decimals: an optional minus sign, the integer part in decimal, a point
    and exactly three digits, together the nearest number of thousandths. *)
Definition three_decimals_of (sign : bool) (m : positive) (e : Z) (s : string)
    : Prop :=
  exists (n : Z) (c1 c2 c3 : ascii),
    nearest_thousandth m e n /\
    s = sign_str sign ++ str_of_nonneg (n / 1000) ++ "."
        ++ String c1 (String c2 (String c3 EmptyString)) /\
    is_digit c1 = true /\ is_digit c2 = true /\ is_digit c3 = true /\
    100 * digit_value c1 + 10 * digit_value c2 + digit_value c3 = n mod 1000.

(** A computation that returns, or fails with [OverflowError] and nothing
    else. *)
Definition only_overflow {A : Type} (c : result A) : Prop :=
  match c with
  | Ok _ => True
  | Raise e => e = OverflowError
  end.

(** A value that is a float. *)
Definition is_float (v : num) : Prop := exists f, v = PyFloat f.

(** A computation that returns. *)
Definition returns {A : Type} (c : result A) : Prop := exists a, c = Ok a.

(** The divisors of a record are nonzero: its duration and, for sports
    walking, its height. *)
Definition nonzero_divisors (t : Training) : Prop :=
  is_zero (duration_of t) = false /\
  match t with
  | SportsWalking _ _ _ h => is_zero h = false
  | _ => True
  end.

(** Rounding a mantissa [m] of at least 53 bits, with the location [l] of the
    exact value above it, to 53 bits: the rounded mantissa and the number of
    places it was shifted by.  It is [binary_round_aux] without the exponent,
    for the values that are not subnormal. *)
Definition rounded_mantissa (m : Z) (l : location) : Z * Z :=
  let n1 := Zdigits2 m - 53 in
  let mrs1 := fst (shr (shr_record_of_loc m l) 0 n1) in
  let m2 := round_nearest_even (shr_m mrs1) (loc_of_shr_record mrs1) in
  let n2 := Zdigits2 m2 - 53 in
  (shr_m (fst (shr (shr_record_of_loc m2 loc_Exact) 0 n2)), n1 + n2).


(** The two float constants of the distance formula. *)
Definition SF_LEN_STEP : spec_float := S754_finite false 5854679515581645 (-53).
Definition SF_M_IN_KM : spec_float := S754_finite false 8796093022208000 (-43).

(** The text that the source gives [KeyError]: an ordinary string literal
    whose first character is the letter f. *)
Definition unknown_code_message : string := "f'Неизвестный код {workout_type}'".

(** The binary digits of a mantissa. *)
Abbreviation digits := Zdigits2.

(** The outcome of rounding: a valid finite float that is not zero, or an
    infinity. *)
Definition rounded_nonzero (r : spec_float) : Prop :=
  valid_binary r = true /\
  ((exists s m e, r = S754_finite s m e) \/ (exists s, r = S754_infinity s)).

(** ** Notions for the further properties *)

(** The values of the fields of a record, in field order
    ([dataclasses.astuple]). *)
Definition field_values (t : Training) : list num :=
  match t with
  | BaseTraining a d w => [a; d; w]
  | Running a d w c s => [a; d; w; c; s]
  | SportsWalking a d w h => [a; d; w; h]
  | Swimming a d w l n ls cs cw => [a; d; w; l; n; ls; cs; cw]
  end.

(** The codes of the dispatch table, in its order. *)
Definition codes : list string := map fst CONFORMITY_TO_CLASSES.

(** The name of the class registered under a code. *)
Definition registered_name (code : string) : string :=
  if String.eqb code "SWM" then "Swimming"
  else if String.eqb code "RUN" then "Running"
  else if String.eqb code "WLK" then "SportsWalking"
  else EmptyString.

(** A computation that returns, or fails with one of the two arithmetic
    errors. *)
Definition arithmetic_faults_only {A : Type} (c : result A) : Prop :=
  match c with
  | Ok _ => True
  | Raise e => e = OverflowError \/ e = ZeroDivisionError
  end.

(** A reading as the float it converts to (itself when it does not
    convert). *)
Definition floated (v : num) : num :=
  match as_float v with
  | Ok f => PyFloat f
  | Raise _ => v
  end.

(** A float that is finite, nonzero and not subnormal, with an exponent
    between [lo] and [hi] (its mantissa has 53 bits). *)
Definition normal_float (f : float) (lo hi : Z) : Prop :=
  exists (s : bool) (m : positive) (e : Z),
    Prim2SF f = S754_finite s m e /\ Zdigits2 (Z.pos m) = 53 /\ lo <= e <= hi.

(** A float that is a zero. *)
Definition zero_float (f : float) : Prop := exists s, Prim2SF f = S754_zero s.

(** An int reading below [2^53] in magnitude. *)
Definition small_int (v : num) : Prop := exists z, v = PyInt z /\ Z.abs z < 2 ^ 53.

(* ===================================================================== *)
(** * Properties                                                          *)
(* ===================================================================== *)

(** ** Coercion lemmas for the arithmetic operators *)

Section Coercions.
Variables (fi : Z -> Z -> result num) (ff : float -> float -> result num).

Lemma arith_float_l (x : float) (b : num) (y : float) :
  as_float b = Ok y -> arith fi ff (PyFloat x) b = ff x y.
Proof.
  intros Hb. unfold arith.
  destruct b; cbn [as_float bind] in *; [ rewrite Hb | injection Hb as -> ];
    reflexivity.
Qed.

Lemma arith_float_r (a : num) (x y : float) :
  as_float a = Ok x -> arith fi ff a (PyFloat y) = ff x y.
Proof.
  intros Ha. unfold arith.
  destruct a; cbn [as_float bind] in *; [ rewrite Ha | injection Ha as -> ];
    reflexivity.
Qed.

End Coercions.

Lemma py_mul_float_l x b y :
  as_float b = Ok y -> py_mul (PyFloat x) b = Ok (PyFloat (x * y)%float).
Proof. intros H. unfold py_mul. rewrite (arith_float_l _ _ _ _ _ H). reflexivity. Qed.

Lemma py_mul_float_r a x y :
  as_float a = Ok x -> py_mul a (PyFloat y) = Ok (PyFloat (x * y)%float).
Proof. intros H. unfold py_mul. rewrite (arith_float_r _ _ _ _ _ H). reflexivity. Qed.

Lemma py_add_float_l x b y :
  as_float b = Ok y -> py_add (PyFloat x) b = Ok (PyFloat (x + y)%float).
Proof. intros H. unfold py_add. rewrite (arith_float_l _ _ _ _ _ H). reflexivity. Qed.

Lemma py_sub_float_l x b y :
  as_float b = Ok y -> py_sub (PyFloat x) b = Ok (PyFloat (x - y)%float).
Proof. intros H. unfold py_sub. rewrite (arith_float_l _ _ _ _ _ H). reflexivity. Qed.

Lemma py_truediv_float_l x b y :
  as_float b = Ok y -> (y =? 0)%float = false ->
  py_truediv (PyFloat x) b = Ok (PyFloat (x / y)%float).
Proof.
  intros H Hy. unfold py_truediv. rewrite (arith_float_l _ _ _ _ _ H).
  unfold float_true_divide. rewrite Hy. reflexivity.
Qed.


Lemma py_floordiv_float_l x b y :
  as_float b = Ok y -> (y =? 0)%float = false ->
  py_floordiv (PyFloat x) b = Ok (PyFloat (float_div_mod_floordiv x y)).
Proof.
  intros H Hy. unfold py_floordiv. rewrite (arith_float_l _ _ _ _ _ H).
  unfold float_floor_div. rewrite Hy. reflexivity.
Qed.

(** The integer constants of the program as floats. *)
Lemma as_float_M_IN_KM : as_float M_IN_KM = Ok 1000%float.
Proof. reflexivity. Qed.

Lemma as_float_MIN_IN_H : as_float MIN_IN_H = Ok 60%float.
Proof. reflexivity. Qed.

Lemma M_IN_KM_nonzero : (1000 =? 0)%float = false.
Proof. reflexivity. Qed.

(** Distance by the formula of [Training], for an action count that is a
    float or converts to one, and a float step length. *)
Lemma base_distance a fa fls :
  as_float a = Ok fa ->
  (x <- py_mul a (PyFloat fls) ;; py_truediv x M_IN_KM)
  = Ok (PyFloat (fa * fls / 1000)%float).
Proof.
  intros Ha. rewrite (py_mul_float_r _ _ _ Ha). cbn [bind].
  apply (py_truediv_float_l _ _ _ as_float_M_IN_KM M_IN_KM_nonzero).
Qed.

(** Two floats that a test tells apart are different. *)
Lemma float_neq (x y : float) :
  (x =? y)%float = false -> (x =? x)%float = true -> x <> y.
Proof. intros Hxy Hxx ->. rewrite Hxy in Hxx. discriminate. Qed.

Lemma returned_neq (c : result num) (x y : float) :
  c = Ok (PyFloat x) -> (x =? y)%float = false -> (x =? x)%float = true ->
  c <> Ok (PyFloat y).
Proof.
  intros -> Hxy Hxx H. apply (float_neq x y Hxy Hxx).
  exact (f_equal returned_float H).
Qed.

(** A chain of steps of a method body, rewritten one operator at a time. *)
Ltac step_with lem := rewrite lem; cbn [bind].

(** Two computations built from the same steps: case analysis on each step
    in turn. *)
Ltac same_steps :=
  repeat match goal with
         | |- context [bind ?c _] => destruct c; cbn [bind]
         end;
  reflexivity.

(** ** The runtime model on known values of Python *)

Example int_to_float_ties_to_even :
  int_to_float (2 ^ 53 + 1) = Ok 9007199254740992%float /\
  int_to_float (2 ^ 53 + 3) = Ok 9007199254740996%float.
Proof. split; reflexivity. Qed.

Example int_to_float_largest :
  int_to_float (2 ^ 1024 - 2 ^ 970 - 1) = Ok 1.7976931348623157e308%float /\
  int_to_float (2 ^ 1024 - 2 ^ 970) = Raise OverflowError.
Proof. split; vm_compute; reflexivity. Qed.

Example true_division :
  py_truediv (PyInt 1) (PyInt 3) = Ok (PyFloat 0.3333333333333333) /\
  py_truediv (PyInt 0) (PyInt (-5)) = Ok (PyFloat (-0)) /\
  py_truediv (PyFloat 1) (PyInt 0) = Raise ZeroDivisionError /\
  py_truediv (PyInt (10 ^ 400)) (PyInt (10 ^ 399)) = Ok (PyFloat 10).
Proof. repeat split; vm_compute; reflexivity. Qed.

Example floor_division :
  py_floordiv (PyFloat 7.5) (PyInt 2) = Ok (PyFloat 3) /\
  py_floordiv (PyFloat (-7.5)) (PyInt 2) = Ok (PyFloat (-4)) /\
  py_floordiv (PyFloat 1) (PyFloat 0.1) = Ok (PyFloat 9) /\
  py_floordiv (PyInt (-7)) (PyInt 2) = Ok (PyInt (-4)) /\
  py_floordiv (PyFloat 1) (PyFloat 0) = Raise ZeroDivisionError.
Proof. repeat split; reflexivity. Qed.

Example power :
  py_pow2 (PyFloat 1.5) = Ok (PyFloat 2.25) /\
  py_pow2 (PyFloat 1e200) = Raise OverflowError /\
  py_pow2 (PyInt (10 ^ 200)) = Ok (PyInt (10 ^ 400)).
Proof. repeat split; vm_compute; reflexivity. Qed.

Example format_three_decimals :
  format_3f (PyFloat 0.0005) = Ok "0.001" /\
  format_3f (PyFloat 0.125) = Ok "0.125" /\
  format_3f (PyFloat 0.0625) = Ok "0.062" /\
  format_3f (PyFloat 1.0005) = Ok "1.000" /\
  format_3f (PyFloat (-0.0001)) = Ok "-0.000" /\
  format_3f (PyInt 1) = Ok "1.000" /\
  format_3f (PyFloat 1e22) = Ok "10000000000000000000000.000" /\
  format_3f (PyFloat infinity) = Ok "inf" /\
  format_3f (PyFloat nan) = Ok "nan".
Proof. repeat split; reflexivity. Qed.

Example dataclass_fields :
  map Dataclass.fname Running_fields
  = ["action"; "duration"; "weight"; "COEFF_TO_SPEED"; "SUBTRAHEND_CALORIES"] /\
  map Dataclass.fname SportsWalking_fields
  = ["action"; "duration"; "weight"; "height"] /\
  map Dataclass.fname Swimming_fields
  = ["action"; "duration"; "weight"; "length_pool"; "count_pool";
     "LEN_STEP"; "COEFF_SPEED"; "COEFF_TO_WEIGHT"].
Proof. repeat split; reflexivity. Qed.

(** ** Rounding to binary64: the result of rounding a mantissa of at least
    53 bits is a valid, nonzero float or an infinity *)

Local Close Scope string_scope.


Lemma digits_nonneg (m : Z) : 0 <= digits m.
Proof. destruct m; simpl; lia. Qed.

Lemma digits_pos_iff (m : Z) : 0 < digits m <-> m <> 0.
Proof. destruct m; simpl; split; intros H; try lia; discriminate. Qed.

Lemma digits2_pos_succ (p : positive) :
  digits2_pos (Pos.succ p) = digits2_pos p
  \/ digits2_pos (Pos.succ p) = Pos.succ (digits2_pos p).
Proof.
  induction p as [p IH | p IH | ]; simpl.
  - destruct IH as [-> | ->]; [ left | right ]; reflexivity.
  - left. reflexivity.
  - right. reflexivity.
Qed.

Lemma digits_succ (m : Z) :
  0 < m -> digits (m + 1) = digits m \/ digits (m + 1) = digits m + 1.
Proof.
  destruct m as [|p|p]; try lia. intros _.
  replace (Z.pos p + 1) with (Z.pos (Pos.succ p)) by lia. simpl.
  destruct (digits2_pos_succ p) as [-> | ->]; [ left | right ]; lia.
Qed.

Lemma digits_iter_xO (p k : positive) :
  Z.pos (digits2_pos (Pos.iter xO p k)) = Z.pos (digits2_pos p) + Z.pos k.
Proof.
  induction k as [|k IH] using Pos.peano_ind.
  - simpl. lia.
  - rewrite Pos.iter_succ. simpl digits2_pos. lia.
Qed.

Lemma shr_1_digits (s : shr_record) :
  digits (shr_m (shr_1 s)) = Z.max 0 (digits (shr_m s) - 1).
Proof.
  destruct s as [[|[p|p|]|[p|p|]] r t];
    cbn [shr_1 shr_m Zdigits2 digits2_pos]; lia.
Qed.

Lemma shr_1_nonneg (s : shr_record) : 0 <= shr_m s -> 0 <= shr_m (shr_1 s).
Proof. destruct s as [[|[p|p|]|[p|p|]] r t]; simpl; lia. Qed.

Lemma iter_shr_1_digits (n : positive) (s : shr_record) :
  digits (shr_m (iter_pos shr_1 n s)) = Z.max 0 (digits (shr_m s) - Z.pos n).
Proof.
  revert s. induction n as [n IH | n IH | ]; intros s; simpl iter_pos.
  - rewrite !IH, shr_1_digits. lia.
  - rewrite !IH. lia.
  - apply shr_1_digits.
Qed.

Lemma iter_shr_1_nonneg (n : positive) (s : shr_record) :
  0 <= shr_m s -> 0 <= shr_m (iter_pos shr_1 n s).
Proof.
  revert s. induction n as [n IH | n IH | ]; intros s Hs; simpl iter_pos.
  - apply IH, IH, shr_1_nonneg, Hs.
  - apply IH, IH, Hs.
  - apply shr_1_nonneg, Hs.
Qed.

(** Shifting right by [n] places. *)
Lemma shr_facts (s : shr_record) (e n : Z) :
  0 <= n -> 0 <= shr_m s ->
  snd (shr s e n) = e + n /\
  0 <= shr_m (fst (shr s e n)) /\
  digits (shr_m (fst (shr s e n))) = Z.max 0 (digits (shr_m s) - n).
Proof.
  intros Hn Hs. pose proof (digits_nonneg (shr_m s)).
  destruct n as [|n|n]; simpl; try lia.
  split; [ reflexivity | ]. split.
  - apply iter_shr_1_nonneg, Hs.
  - apply iter_shr_1_digits.
Qed.

Lemma shr_m_of_loc (m : Z) (l : location) : shr_m (shr_record_of_loc m l) = m.
Proof. destruct l as [|[| |]]; reflexivity. Qed.

Lemma round_nearest_even_cases (m : Z) (l : location) :
  round_nearest_even m l = m \/ round_nearest_even m l = m + 1.
Proof.
  destruct l as [|[| |]]; simpl; auto. destruct (Z.even m); auto.
Qed.

Lemma shr_exp (s : shr_record) (e n : Z) :
  0 <= n -> shr s e n = (fst (shr s 0 n), e + n).
Proof.
  destruct n as [|n|n]; simpl; intros Hn; try lia; f_equal; lia.
Qed.

(** [binary_round_aux] on a positive mantissa of at least 53 bits, away from
    the subnormal range: the rounded mantissa has 53 bits, and the exponent
    only adds to the shift. *)
Lemma binary_round_aux_normal (s : bool) (m e : Z) (l : location) :
  0 < m -> 53 <= digits m -> -1074 <= e ->
  exists m3 : positive,
    fst (rounded_mantissa m l) = Z.pos m3 /\
    digits (Z.pos m3) = 53 /\
    digits m - 53 <= snd (rounded_mantissa m l) <= digits m - 52 /\
    binary_round_aux prec emax s m e l
    = if e + snd (rounded_mantissa m l) <=? 971
      then S754_finite s m3 (e + snd (rounded_mantissa m l))
      else S754_infinity s.
Proof.
  intros Hm Hd He. unfold binary_round_aux, shr_fexp, rounded_mantissa.
  cbn [fst snd].
  (* first shift *)
  replace (fexp prec emax (digits m + e) - e) with (digits m - 53)
    by (unfold fexp, SpecFloat.emin, prec, emax; lia).
  set (n1 := digits m - 53).
  rewrite (shr_exp _ e n1) by lia.
  destruct (shr_facts (shr_record_of_loc m l) 0 n1) as (_ & Hp1 & Hd1);
    [ lia | rewrite shr_m_of_loc; lia | ].
  rewrite shr_m_of_loc in Hd1.
  set (mrs1 := fst (shr (shr_record_of_loc m l) 0 n1)) in *.
  set (m2 := round_nearest_even (shr_m mrs1) (loc_of_shr_record mrs1)).
  assert (Hd1' : digits (shr_m mrs1) = 53) by lia.
  assert (Hm1 : 0 < shr_m mrs1)
    by (assert (shr_m mrs1 <> 0) by (apply digits_pos_iff; lia); lia).
  assert (Hm2 : 0 < m2 /\ (digits m2 = 53 \/ digits m2 = 54)).
  { unfold m2.
    destruct (round_nearest_even_cases (shr_m mrs1) (loc_of_shr_record mrs1))
      as [-> | ->]; [ lia | ].
    destruct (digits_succ _ Hm1); lia. }
  destruct Hm2 as [Hm2 Hd2].
  (* second shift *)
  replace (fexp prec emax (digits m2 + (e + n1)) - (e + n1)) with (digits m2 - 53)
    by (unfold fexp, SpecFloat.emin, prec, emax; lia).
  set (n2 := digits m2 - 53).
  rewrite (shr_exp _ (e + n1) n2) by lia.
  destruct (shr_facts (shr_record_of_loc m2 loc_Exact) 0 n2) as (_ & Hp2 & Hd3);
    [ lia | simpl; lia | ].
  simpl shr_m in Hd3 at 2.
  set (mrs2 := fst (shr (shr_record_of_loc m2 loc_Exact) 0 n2)) in *.
  assert (Hd3' : digits (shr_m mrs2) = 53) by lia.
  destruct (shr_m mrs2) as [|m3|m3] eqn:Em3; [ discriminate | | lia ].
  exists m3. split; [ reflexivity | ]. split; [ exact Hd3' | ].
  split; [ lia | ].
  replace (e + n1 + n2) with (e + (n1 + n2)) by lia.
  unfold emax, prec. simpl (1024 - 53). reflexivity.
Qed.

Lemma normal_valid (s : bool) (m : positive) (e : Z) :
  digits (Z.pos m) = 53 -> -1074 <= e <= 971 ->
  valid_binary (S754_finite s m e) = true.
Proof.
  intros Hd He. simpl in Hd. simpl valid_binary. unfold bounded, canonical_mantissa.
  apply andb_true_intro. split.
  - apply Z.eqb_eq. unfold fexp, SpecFloat.emin, prec, emax. lia.
  - apply Z.leb_le. unfold prec, emax. lia.
Qed.

Lemma binary_round_aux_nonzero (s : bool) (m e : Z) (l : location) :
  0 < m -> 53 <= digits m -> -1074 <= e ->
  rounded_nonzero (binary_round_aux prec emax s m e l).
Proof.
  intros Hm Hd He.
  destruct (binary_round_aux_normal s m e l Hm Hd He) as (m3 & _ & Hd3 & Hn & ->).
  destruct (Z.leb_spec (e + snd (rounded_mantissa m l)) 971) as [Hle | Hgt].
  - split; [ apply normal_valid; [ exact Hd3 | lia ] | left; eauto ].
  - split; [ reflexivity | right; eauto ].
Qed.

Lemma binary_normalize_nonzero (z : Z) :
  z <> 0 -> rounded_nonzero (binary_normalize prec emax z 0 false).
Proof.
  assert (H : forall s p, rounded_nonzero (binary_round prec emax s p 0)).
  { intros s p. unfold binary_round, shl_align.
    replace (fexp prec emax (Z.pos (digits2_pos p) + 0) - 0)
      with (Z.pos (digits2_pos p) - 53)
      by (unfold fexp, SpecFloat.emin, prec, emax; lia).
    destruct (Z.pos (digits2_pos p) - 53) as [|k|k] eqn:Ek.
    - apply binary_round_aux_nonzero; simpl; lia.
    - apply binary_round_aux_nonzero; simpl; lia.
    - replace (fexp prec emax (Z.pos (digits2_pos p) + 0))
        with (Z.pos (digits2_pos p) - 53)
        by (unfold fexp, SpecFloat.emin, prec, emax; lia).
      apply binary_round_aux_nonzero; simpl digits;
        try rewrite digits_iter_xO; lia. }
  intros Hz. destruct z as [|p|p]; [ contradiction | apply H | apply H ].
Qed.

Lemma rounded_nonzero_float (r : spec_float) :
  rounded_nonzero r -> (SF2Prim r =? 0)%float = false.
Proof.
  intros [Hv Hr]. rewrite FloatAxioms.eqb_spec, (Prim2SF_SF2Prim r Hv).
  destruct Hr as [(s & m & e & ->) | (s & ->)]; destruct s; reflexivity.
Qed.

(** A nonzero int is a nonzero float. *)
Lemma int_to_float_nonzero (z : Z) (f : float) :
  int_to_float z = Ok f -> z <> 0 -> (f =? 0)%float = false.
Proof.
  unfold int_to_float. intros H Hz.
  destruct (is_inf _); [ discriminate | ].
  apply (f_equal (fun r => match r with Ok x => x | Raise _ => nan end)) in H.
  subst f. apply rounded_nonzero_float, binary_normalize_nonzero, Hz.
Qed.

Lemma int_to_float_zero : int_to_float 0 = Ok 0%float.
Proof. reflexivity. Qed.

Local Open Scope string_scope.

(** ** Scaling by a power of two commutes with rounding *)

Local Close Scope string_scope.

Lemma digits2_pos_size (p : positive) : digits2_pos p = Pos.size p.
Proof. induction p as [p IH | p IH | ]; simpl; rewrite ?IH; reflexivity. Qed.

Lemma digits_log2 (m : Z) : 0 < m -> digits m = Z.log2 m + 1.
Proof.
  destruct m as [|p|p]; try lia. intros _. simpl digits.
  destruct p as [p | p | ]; simpl; rewrite ?digits2_pos_size; lia.
Qed.

Lemma digits_bounds (m : Z) : 0 < m -> 2 ^ (digits m - 1) <= m < 2 ^ digits m.
Proof.
  intros Hm. rewrite (digits_log2 m Hm).
  replace (Z.log2 m + 1 - 1) with (Z.log2 m) by lia.
  apply (Z.log2_spec m Hm).
Qed.

Lemma digits_abs (m : Z) : digits (Z.abs m) = digits m.
Proof. destruct m; reflexivity. Qed.

(** The digits of a product with a power of two. *)
Lemma digits_mul_pow2 (m j : Z) : 0 < m -> 0 <= j -> digits (m * 2 ^ j) = digits m + j.
Proof.
  intros Hm Hj. assert (0 < 2 ^ j) by (apply Z.pow_pos_nonneg; lia).
  rewrite !digits_log2 by nia. rewrite Z.log2_mul_pow2 by lia. lia.
Qed.

Lemma iter_xO_pow2 (p k : positive) : Z.pos (Pos.iter xO p k) = Z.pos p * 2 ^ Z.pos k.
Proof.
  induction k as [|k IH] using Pos.peano_ind.
  - simpl. lia.
  - rewrite Pos.iter_succ, Pos2Z.inj_xO, IH, Pos2Z.inj_succ, Z.pow_succ_r by lia.
    ring.
Qed.

Lemma shl_align_spec (p : positive) (e e' : Z) :
  e' <= e ->
  Z.pos (fst (shl_align p e e')) = Z.pos p * 2 ^ (e - e') /\
  snd (shl_align p e e') = e'.
Proof.
  intros He. unfold shl_align.
  destruct (e' - e) as [|k|k] eqn:Ek; cbn [fst snd].
  - replace (e - e') with 0 by lia. split; lia.
  - lia.
  - replace (e - e') with (Z.pos k) by lia. split; [ apply iter_xO_pow2 | reflexivity ].
Qed.

(** Rounding a mantissa that has 53 bits already changes nothing. *)
Lemma rounded_mantissa_exact (m : positive) :
  digits (Z.pos m) = 53 -> rounded_mantissa (Z.pos m) loc_Exact = (Z.pos m, 0).
Proof.
  intros Hd. unfold rounded_mantissa. rewrite Hd. simpl (53 - 53).
  cbn [shr fst shr_record_of_loc shr_m loc_of_shr_record round_nearest_even].
  rewrite Hd. reflexivity.
Qed.

(** [float (z)] for [|z| < 2^53]: exact, with a mantissa of 53 bits. *)
Lemma binary_normalize_small (z : Z) :
  z <> 0 -> Z.abs z < 2 ^ 53 ->
  exists m : positive,
    binary_normalize prec emax z 0 false
    = S754_finite (z <? 0) m (digits z - 53) /\
    Z.pos m = Z.abs z * 2 ^ (53 - digits z) /\
    digits (Z.pos m) = 53.
Proof.
  assert (H : forall s p, Z.pos p < 2 ^ 53 ->
            exists m : positive,
              binary_round prec emax s p 0
              = S754_finite s m (Z.pos (digits2_pos p) - 53) /\
              Z.pos m = Z.pos p * 2 ^ (53 - Z.pos (digits2_pos p)) /\
              digits (Z.pos m) = 53).
  { intros s p Hp. unfold binary_round.
    assert (Hdp : Z.pos (digits2_pos p) <= 53).
    { pose proof (digits_bounds (Z.pos p) ltac:(lia)) as [Hlo _].
      simpl digits in Hlo.
      destruct (Z.le_gt_cases (Z.pos (digits2_pos p)) 53) as [Hle | Hgt];
        [ exact Hle | exfalso ].
      assert (2 ^ 53 <= 2 ^ (Z.pos (digits2_pos p) - 1))
        by (apply Z.pow_le_mono_r; lia).
      lia. }
    replace (fexp prec emax (Z.pos (digits2_pos p) + 0))
      with (Z.pos (digits2_pos p) - 53)
      by (unfold fexp, SpecFloat.emin, prec, emax; lia).
    destruct (shl_align_spec p 0 (Z.pos (digits2_pos p) - 53) ltac:(lia))
      as [Hmz Hez].
    destruct (shl_align p 0 (Z.pos (digits2_pos p) - 53)) as [mz ez].
    cbn [fst snd] in Hmz, Hez. subst ez.
    replace (0 - (Z.pos (digits2_pos p) - 53)) with (53 - Z.pos (digits2_pos p))
      in Hmz by lia.
    assert (Hdz : digits (Z.pos mz) = 53).
    { rewrite Hmz, digits_mul_pow2 by lia. simpl digits. lia. }
    destruct (binary_round_aux_normal s (Z.pos mz) (Z.pos (digits2_pos p) - 53)
                loc_Exact ltac:(lia) ltac:(lia) ltac:(lia))
      as (m3 & Hm3 & Hd3 & _ & ->).
    rewrite (rounded_mantissa_exact mz Hdz) in *. cbn [fst snd] in *.
    assert (m3 = mz) by congruence. subst m3.
    exists mz. rewrite Z.add_0_r.
    destruct (Z.leb_spec (Z.pos (digits2_pos p) - 53) 971); [ | lia ].
    repeat split; assumption. }
  intros Hz Hlt. destruct z as [|p|p]; [ contradiction | | ].
  - apply (H false p Hlt).
  - apply (H true p Hlt).
Qed.

Lemma finite_not_inf (s : bool) (m : positive) (e : Z) :
  valid_binary (S754_finite s m e) = true ->
  is_inf (SF2Prim (S754_finite s m e)) = false.
Proof.
  intros Hv. unfold is_inf, is_infinity.
  rewrite FloatAxioms.eqb_spec, abs_spec, (Prim2SF_SF2Prim _ Hv). reflexivity.
Qed.

(** [int_to_float] of a nonzero int below [2^53]. *)
Lemma int_to_float_small (z : Z) :
  z <> 0 -> Z.abs z < 2 ^ 53 ->
  exists (f : float) (m : positive),
    int_to_float z = Ok f /\
    Prim2SF f = S754_finite (z <? 0) m (digits z - 53) /\
    Z.pos m = Z.abs z * 2 ^ (53 - digits z) /\
    digits (Z.pos m) = 53.
Proof.
  intros Hz Hlt.
  destruct (binary_normalize_small z Hz Hlt) as (m & Hn & Hm & Hd).
  assert (Hdz : 1 <= digits z <= 53).
  { pose proof (digits_pos_iff z) as [_ Hp]. specialize (Hp Hz).
    rewrite <- digits_abs.
    pose proof (digits_bounds (Z.abs z) ltac:(lia)) as [Hlo _].
    rewrite <- digits_abs in Hp. split; [ lia | ].
    destruct (Z.le_gt_cases (digits (Z.abs z)) 53) as [Hle | Hgt];
      [ exact Hle | exfalso ].
    assert (2 ^ 53 <= 2 ^ (digits (Z.abs z) - 1)) by (apply Z.pow_le_mono_r; lia).
    lia. }
  assert (Hv : valid_binary (S754_finite (z <? 0) m (digits z - 53)) = true)
    by (apply normal_valid; [ exact Hd | lia ]).
  exists (SF2Prim (S754_finite (z <? 0) m (digits z - 53))), m.
  split; [ | split; [ apply Prim2SF_SF2Prim, Hv | split; assumption ] ].
  unfold int_to_float. rewrite Hn, (finite_not_inf _ _ _ Hv). reflexivity.
Qed.

Lemma digits_ge (m k : Z) : 0 < m -> 2 ^ k <= m -> k + 1 <= digits m.
Proof.
  intros Hm Hk. pose proof (digits_bounds m Hm) as [_ Hhi].
  destruct (Z.le_gt_cases (k + 1) (digits m)) as [Hle | Hgt]; [ exact Hle | exfalso ].
  pose proof (digits_nonneg m).
  assert (2 ^ digits m <= 2 ^ k) by (apply Z.pow_le_mono_r; lia).
  lia.
Qed.

Lemma digits_le (m k : Z) : 0 < m -> 0 <= k -> m < 2 ^ k -> digits m <= k.
Proof.
  intros Hm Hk0 Hk. pose proof (digits_bounds m Hm) as [Hlo _].
  destruct (Z.le_gt_cases (digits m) k) as [Hle | Hgt]; [ exact Hle | exfalso ].
  assert (2 ^ k <= 2 ^ (digits m - 1)) by (apply Z.pow_le_mono_r; lia).
  lia.
Qed.

(** The bounds of a mantissa of 53 bits. *)
Lemma mantissa_bounds (m : positive) :
  digits (Z.pos m) = 53 -> 2 ^ 52 <= Z.pos m < 2 ^ 53.
Proof.
  intros Hd. pose proof (digits_bounds (Z.pos m) ltac:(lia)) as H.
  rewrite Hd in H. exact H.
Qed.

Lemma Prim2SF_LEN_STEP : Prim2SF 0.65 = SF_LEN_STEP.
Proof. reflexivity. Qed.

Lemma Prim2SF_M_IN_KM : Prim2SF 1000 = SF_M_IN_KM.
Proof. reflexivity. Qed.

(** Multiplying by 0.65: the exponent of the left operand only adds to the
    exponent of the product. *)
Lemma mul_LEN_STEP_scale (s : bool) (m : positive) (e j : Z) :
  digits (Z.pos m) = 53 -> -900 <= e -> 0 <= j -> e + j <= 900 ->
  exists (m' : positive) (e' : Z),
    digits (Z.pos m') = 53 /\ e - 1 <= e' <= e + 1 /\
    SF64mul (S754_finite s m e) SF_LEN_STEP = S754_finite s m' e' /\
    SF64mul (S754_finite s m (e + j)) SF_LEN_STEP = S754_finite s m' (e' + j).
Proof.
  intros Hd He Hj Hej. unfold SF64mul, SF_LEN_STEP. cbn [SFmul].
  rewrite xorb_false_r.
  pose proof (mantissa_bounds m Hd) as Hm.
  set (P := Z.pos (m * 5854679515581645)).
  assert (HP : P = Z.pos m * 5854679515581645) by reflexivity.
  assert (HdP : 105 <= digits P <= 106).
  { split.
    - apply (digits_ge P 104); [ lia | ]. change (2 ^ 104) with (2 ^ 52 * 2 ^ 52). nia.
    - apply (digits_le P 106); [ lia | lia | ].
      change (2 ^ 106) with (2 ^ 53 * 2 ^ 53). nia. }
  destruct (binary_round_aux_normal s P (e + -53) loc_Exact
              ltac:(lia) ltac:(lia) ltac:(lia)) as (m3 & Hm3 & Hd3 & Hn & E1).
  destruct (binary_round_aux_normal s P (e + j + -53) loc_Exact
              ltac:(lia) ltac:(lia) ltac:(lia)) as (m3' & Hm3' & _ & _ & E2).
  assert (m3' = m3) by congruence. subst m3'.
  set (n := snd (rounded_mantissa P loc_Exact)) in *.
  exists m3, (e + -53 + n). split; [ exact Hd3 | ]. split; [ lia | ].
  rewrite E1, E2.
  destruct (Z.leb_spec (e + -53 + n) 971); [ | lia ].
  destruct (Z.leb_spec (e + j + -53 + n) 971); [ | lia ].
  split; [ reflexivity | f_equal; lia ].
Qed.

(** Dividing by 1000, likewise. *)
Lemma div_M_IN_KM_scale (s : bool) (m : positive) (e j : Z) :
  digits (Z.pos m) = 53 -> -900 <= e -> 0 <= j -> e + j <= 900 ->
  exists (m' : positive) (e' : Z),
    digits (Z.pos m') = 53 /\ e - 10 <= e' <= e - 8 /\
    SF64div (S754_finite s m e) SF_M_IN_KM = S754_finite s m' e' /\
    SF64div (S754_finite s m (e + j)) SF_M_IN_KM = S754_finite s m' (e' + j).
Proof.
  intros Hd He Hj Hej. unfold SF64div, SF_M_IN_KM. cbn [SFdiv].
  rewrite xorb_false_r.
  pose proof (mantissa_bounds m Hd) as Hm.
  assert (Hcore : forall e0, -900 <= e0 <= 900 ->
            SFdiv_core_binary prec emax (Z.pos m) e0 8796093022208000 (-43)
            = (Z.pos m * 2 ^ 53 / 8796093022208000, e0 - 10,
               new_location 8796093022208000
                 ((Z.pos m * 2 ^ 53) mod 8796093022208000))).
  { intros e0 He0. unfold SFdiv_core_binary.
    change (digits 8796093022208000) with 53. rewrite Hd.
    replace (Z.min (fexp prec emax (53 + e0 - (53 + -43))) (e0 - -43))
      with (e0 - 10) by (unfold fexp, SpecFloat.emin, prec, emax; lia).
    replace (e0 - -43 - (e0 - 10)) with 53 by lia.
    rewrite Z.shiftl_mul_pow2 by lia.
    unfold Z.div, Z.modulo.
    destruct (Z.div_eucl (Z.pos m * 2 ^ 53) 8796093022208000) as [q r].
    reflexivity. }
  rewrite (Hcore e) by lia. rewrite (Hcore (e + j)) by lia.
  set (q := Z.pos m * 2 ^ 53 / 8796093022208000).
  set (l := new_location 8796093022208000 ((Z.pos m * 2 ^ 53) mod 8796093022208000)).
  assert (Hq : 2 ^ 52 <= q < 2 ^ 54).
  { unfold q. split.
    - apply Z.div_le_lower_bound; [ lia | ].
      change (2 ^ 53) with 9007199254740992.
      change (2 ^ 52) with 4503599627370496 in *. lia.
    - apply Z.div_lt_upper_bound; [ lia | ].
      change (2 ^ 53) with 9007199254740992 in *.
      change (2 ^ 54) with 18014398509481984. lia. }
  assert (Hdq : 53 <= digits q <= 54).
  { split; [ apply (digits_ge q 52); lia | apply (digits_le q 54); lia ]. }
  destruct (binary_round_aux_normal s q (e - 10) l
              ltac:(lia) ltac:(lia) ltac:(lia)) as (m3 & Hm3 & Hd3 & Hn & E1).
  destruct (binary_round_aux_normal s q (e + j - 10) l
              ltac:(lia) ltac:(lia) ltac:(lia)) as (m3' & Hm3' & _ & _ & E2).
  assert (m3' = m3) by congruence. subst m3'.
  set (n := snd (rounded_mantissa q l)) in *.
  exists m3, (e - 10 + n). split; [ exact Hd3 | ]. split; [ lia | ].
  rewrite E1, E2.
  destruct (Z.leb_spec (e - 10 + n) 971); [ | lia ].
  destruct (Z.leb_spec (e + j - 10 + n) 971); [ | lia ].
  split; [ reflexivity | f_equal; lia ].
Qed.



Local Open Scope string_scope.

(** ** Spent calories of running and swimming, whatever the coefficients *)

Lemma running_calories (a d w c s : num) (fa fd fw fc fs : float) :
  as_float a = Ok fa -> as_float d = Ok fd -> as_float w = Ok fw ->
  as_float c = Ok fc -> as_float s = Ok fs ->
  (fd =? 0)%float = false ->
  let r := Running a d w c s in
  let mean_speed := (fa * 0.65 / 1000 / fd)%float in
  get_distance r = Ok (PyFloat (fa * 0.65 / 1000)%float) /\
  get_mean_speed r = Ok (PyFloat mean_speed) /\
  get_spent_calories r
  = Ok (PyFloat ((fc * mean_speed - fs) * fw / 1000 * fd * 60)%float).
Proof.
  intros Ha Hd Hw Hc Hs Hnz r mean_speed.
  assert (Hdist : get_distance r = Ok (PyFloat (fa * 0.65 / 1000)%float))
    by (apply base_distance; exact Ha).
  assert (Hspeed : get_mean_speed r = Ok (PyFloat mean_speed)).
  { cbn [get_mean_speed r]. unfold Training_get_mean_speed. rewrite Hdist.
    cbn [bind duration_of]. apply py_truediv_float_l; assumption. }
  split; [ exact Hdist | ]. split; [ exact Hspeed | ].
  cbn [get_spent_calories r]. fold r. rewrite Hspeed. cbn [bind].
  step_with (py_mul_float_r c fc mean_speed Hc).
  step_with (py_sub_float_l (fc * mean_speed) s fs Hs).
  step_with (py_mul_float_l (fc * mean_speed - fs) _ _ Hw).
  step_with (py_truediv_float_l ((fc * mean_speed - fs) * fw) _ _
               as_float_M_IN_KM M_IN_KM_nonzero).
  step_with (py_mul_float_l ((fc * mean_speed - fs) * fw / 1000) _ _ Hd).
  apply (py_mul_float_l _ _ _ as_float_MIN_IN_H).
Qed.

Lemma swimming_calories (a d w l n ls cs cw p : num) (q fd fw fcs fcw : float) :
  py_mul l n = Ok p -> py_truediv p (PyInt 1000) = Ok (PyFloat q) ->
  as_float d = Ok fd -> as_float w = Ok fw ->
  as_float cs = Ok fcs -> as_float cw = Ok fcw ->
  (fd =? 0)%float = false ->
  let r := Swimming a d w l n ls cs cw in
  get_mean_speed r = Ok (PyFloat (q / fd)%float) /\
  get_spent_calories r = Ok (PyFloat ((q / fd + fcs) * fcw * fw)%float).
Proof.
  intros Hp Hq Hd Hw Hcs Hcw Hnz r.
  assert (Hspeed : get_mean_speed r = Ok (PyFloat (q / fd)%float)).
  { cbn [get_mean_speed r]. unfold Swimming_get_mean_speed.
    rewrite Hp. cbn [bind]. unfold M_IN_KM. rewrite Hq. cbn [bind].
    apply py_truediv_float_l; assumption. }
  split; [ exact Hspeed | ].
  cbn [get_spent_calories r]. fold r. rewrite Hspeed. cbn [bind].
  step_with (py_add_float_l (q / fd) cs fcs Hcs).
  step_with (py_mul_float_l (q / fd + fcs) cw fcw Hcw).
  apply (py_mul_float_l _ _ _ Hw).
Qed.

Lemma sports_walking_calories (a d w h : num) (fa fd fw fh : float) :
  as_float a = Ok fa -> as_float d = Ok fd -> as_float w = Ok fw ->
  as_float h = Ok fh ->
  (fd =? 0)%float = false -> (fh =? 0)%float = false ->
  let r := SportsWalking a d w h in
  let mean_speed := (fa * 0.65 / 1000 / fd)%float in
  pow2_overflows mean_speed = false ->
  get_distance r = Ok (PyFloat (fa * 0.65 / 1000)%float) /\
  get_mean_speed r = Ok (PyFloat mean_speed) /\
  get_spent_calories r
  = Ok (PyFloat
          ((0.035 * fw
            + float_div_mod_floordiv (mean_speed * mean_speed) fh * 0.029 * fw)
           * fd * 60)%float).
Proof.
  intros Ha Hd Hw Hh Hnzd Hnzh r mean_speed Hpow.
  assert (Hdist : get_distance r = Ok (PyFloat (fa * 0.65 / 1000)%float))
    by (apply base_distance; exact Ha).
  assert (Hspeed : get_mean_speed r = Ok (PyFloat mean_speed)).
  { cbn [get_mean_speed r]. unfold Training_get_mean_speed. rewrite Hdist.
    cbn [bind duration_of]. apply py_truediv_float_l; assumption. }
  split; [ exact Hdist | ]. split; [ exact Hspeed | ].
  cbn [get_spent_calories r]. fold r. unfold COEFF_OF_WEIGHT.
  step_with (py_mul_float_l 0.035 _ _ Hw).
  rewrite Hspeed. cbn [bind py_pow2]. rewrite Hpow. cbn [bind].
  step_with (py_floordiv_float_l (mean_speed * mean_speed) _ _ Hh Hnzh).
  unfold COEFF_OF_ACCELERATION.
  step_with (py_mul_float_l (float_div_mod_floordiv (mean_speed * mean_speed) fh)
               (PyFloat 0.029) 0.029 eq_refl).
  step_with (py_mul_float_l
               (float_div_mod_floordiv (mean_speed * mean_speed) fh * 0.029)
               _ _ Hw).
  step_with (py_add_float_l (0.035 * fw) (PyFloat
     (float_div_mod_floordiv (mean_speed * mean_speed) fh * 0.029 * fw)) _ eq_refl).
  step_with (py_mul_float_l
     (0.035 * fw + float_div_mod_floordiv (mean_speed * mean_speed) fh * 0.029 * fw)
     _ _ Hd).
  apply (py_mul_float_l _ _ _ as_float_MIN_IN_H).
Qed.

(** What [show_training_info] returns once the three methods return. *)
Lemma show_training_info_returns (t : Training) (s v c : num) :
  get_distance t = Ok s -> get_mean_speed t = Ok v ->
  get_spent_calories t = Ok c ->
  show_training_info t
  = Ok {| training_type := class_name t; duration := duration_of t;
          distance := s; speed := v; calories := c |}.
Proof.
  intros Hs Hv Hc. unfold show_training_info. rewrite Hs, Hv, Hc. reflexivity.
Qed.

(** ** Running *)

(** C1, as stated, fails on the scenario: the calories of
    [read_package ("RUN", [15000, 1, 75])] are 699.75, not 701.25. *)
Lemma running_scenario_calories_not_701_25 :
  read_package "RUN" [PyInt 15000; PyInt 1; PyInt 75] = Ok run_scenario /\
  get_spent_calories run_scenario = Ok (PyFloat 699.75) /\
  get_spent_calories run_scenario <> Ok (PyFloat 701.25).
Proof.
  split; [ reflexivity | ]. split; [ reflexivity | ].
  apply (returned_neq _ 699.75); reflexivity.
Qed.

(** C1 (amended): for every Running record built from three readings,
    [get_distance] is [action * 0.65 / 1000], [get_mean_speed] is
    [distance / duration] and [get_spent_calories] is
    [(18 * mean_speed - 20) * weight / 1000 * duration * 60], as Python
    evaluates these expressions; with a nonzero duration and readings in the
    range of floats they are the binary64 values of the formulas; and
    [read_package ("RUN", [15000, 1, 75])] has distance 9.75, mean speed 9.75
    and calories 699.75. *)
Theorem running_formulas :
  (forall a d w : num,
      let r := Running a d w (PyInt 18) (PyInt 20) in
      read_package "RUN" [a; d; w] = Ok r /\
      get_distance r = spec_distance a (PyFloat 0.65) /\
      get_mean_speed r = spec_mean_speed (get_distance r) d /\
      get_spent_calories r = spec_running_calories (get_mean_speed r) w d) /\
  (forall (a d w : num) (fa fd fw : float),
      as_float a = Ok fa -> as_float d = Ok fd -> as_float w = Ok fw ->
      (fd =? 0)%float = false ->
      let r := Running a d w (PyInt 18) (PyInt 20) in
      let mean_speed := (fa * 0.65 / 1000 / fd)%float in
      read_package "RUN" [a; d; w] = Ok r /\
      get_distance r = Ok (PyFloat (fa * 0.65 / 1000)%float) /\
      get_mean_speed r = Ok (PyFloat mean_speed) /\
      get_spent_calories r
      = Ok (PyFloat ((18 * mean_speed - 20) * fw / 1000 * fd * 60)%float)) /\
  (read_package "RUN" [PyInt 15000; PyInt 1; PyInt 75] = Ok run_scenario /\
   get_distance run_scenario = Ok (PyFloat 9.75) /\
   get_mean_speed run_scenario = Ok (PyFloat 9.75) /\
   get_spent_calories run_scenario = Ok (PyFloat 699.75)).
Proof.
  split; [ | split; [ | repeat split; reflexivity ] ].
  { intros a d w r. repeat (split; [ reflexivity | ]).
    unfold spec_running_calories, lift2, lit_int, val.
    cbn [get_spent_calories r bind]. fold r. unfold M_IN_KM, MIN_IN_H.
    same_steps. }
  intros a d w fa fd fw Ha Hd Hw Hnz r mean_speed.
  split; [ reflexivity | ].
  exact (running_calories a d w (PyInt 18) (PyInt 20) fa fd fw 18 20
           Ha Hd Hw eq_refl eq_refl Hnz).
Qed.

(** The hypotheses of [running_formulas] hold on the scenario. *)
Lemma running_formulas_witness :
  get_spent_calories run_scenario = Ok (PyFloat 699.75).
Proof.
  exact (proj2 (proj2 (proj2
    (proj1 (proj2 running_formulas) (PyInt 15000) (PyInt 1) (PyInt 75)
       15000%float 1%float 75%float eq_refl eq_refl eq_refl eq_refl)))).
Defined.

(** ** Swimming *)



(** ** Sports walking *)



(** ** The dispatcher: arity *)

(** C4 fails on the code: [read_package] raises the arity error exactly when
    the number of readings is outside 3..5 for "RUN", outside 5..8 for "SWM",
    and other than 4 for "WLK"; so [read_package ("RUN", [1, 2])] fails, but
    [read_package ("RUN", [15000, 1, 75, 0, 0])], with five readings for a
    variant of three fields, returns a record. *)
Theorem read_package_arity :
  (forall data : list num,
      (read_package "RUN" data = Raise TypeError
       <-> ~ (3 <= List.length data <= 5)%nat) /\
      (read_package "SWM" data = Raise TypeError
       <-> ~ (5 <= List.length data <= 8)%nat) /\
      (read_package "WLK" data = Raise TypeError
       <-> List.length data <> 4%nat)) /\
  read_package "RUN" [PyInt 1; PyInt 2] = Raise TypeError /\
  read_package "RUN" [PyInt 15000; PyInt 1; PyInt 75; PyInt 0; PyInt 0]
  = Ok (Running (PyInt 15000) (PyInt 1) (PyInt 75) (PyInt 0) (PyInt 0)).
Proof.
  split; [ | split; reflexivity ].
  intros data. split; [ | split ].
  - destruct data as [|a [|b [|c [|d [|e [|f rest]]]]]];
      try (split; [ intros _; simpl; lia | reflexivity ]);
      (split; [ discriminate | intros H; exfalso; apply H; simpl; lia ]).
  - destruct data as [|a [|b [|c [|d [|e [|f [|g [|h [|i rest]]]]]]]]];
      try (split; [ intros _; simpl; lia | reflexivity ]);
      (split; [ discriminate | intros H; exfalso; apply H; simpl; lia ]).
  - destruct data as [|a [|b [|c [|d [|e rest]]]]];
      try (split; [ intros _; simpl; lia | reflexivity ]);
      (split; [ discriminate | intros H; exfalso; apply H; reflexivity ]).
Qed.

(** C10: read_package ("RUN", readings) returns a record for 3, 4 and 5
    readings, the 4th and 5th taking the place of 18 and 20 in the calorie
    formula; read_package ("SWM", readings) returns a record for 5 up to 8
    readings, the extras taking the place of the step length 1.38 and of the
    coefficients 1.1 and 2. *)
Theorem extra_readings_replace_constants :
  (forall a d w : num,
      read_package "RUN" [a; d; w] = Ok (Running a d w (PyInt 18) (PyInt 20))) /\
  (forall a d w c : num,
      read_package "RUN" [a; d; w; c] = Ok (Running a d w c (PyInt 20))) /\
  (forall a d w c s : num,
      read_package "RUN" [a; d; w; c; s] = Ok (Running a d w c s)) /\
  (forall a d w l n : num,
      read_package "SWM" [a; d; w; l; n]
      = Ok (Swimming a d w l n (PyFloat 1.38) (PyFloat 1.1) (PyInt 2))) /\
  (forall a d w l n ls : num,
      read_package "SWM" [a; d; w; l; n; ls]
      = Ok (Swimming a d w l n ls (PyFloat 1.1) (PyInt 2))) /\
  (forall a d w l n ls cs : num,
      read_package "SWM" [a; d; w; l; n; ls; cs]
      = Ok (Swimming a d w l n ls cs (PyInt 2))) /\
  (forall a d w l n ls cs cw : num,
      read_package "SWM" [a; d; w; l; n; ls; cs; cw]
      = Ok (Swimming a d w l n ls cs cw)) /\
  (forall (a d w c s : num) (fa fd fw fc fs : float),
      as_float a = Ok fa -> as_float d = Ok fd -> as_float w = Ok fw ->
      as_float c = Ok fc -> as_float s = Ok fs ->
      (fd =? 0)%float = false ->
      get_spent_calories (Running a d w c s)
      = Ok (PyFloat ((fc * (fa * 0.65 / 1000 / fd) - fs) * fw / 1000 * fd * 60)%float)) /\
  (forall (a d w l n cs cw p : num) (fls q fa fd fw fcs fcw : float),
      py_mul l n = Ok p -> py_truediv p (PyInt 1000) = Ok (PyFloat q) ->
      as_float a = Ok fa -> as_float d = Ok fd -> as_float w = Ok fw ->
      as_float cs = Ok fcs -> as_float cw = Ok fcw ->
      (fd =? 0)%float = false ->
      let r := Swimming a d w l n (PyFloat fls) cs cw in
      get_distance r = Ok (PyFloat (fa * fls / 1000)%float) /\
      get_spent_calories r = Ok (PyFloat ((q / fd + fcs) * fcw * fw)%float)) /\
  (r <- read_package "RUN" [PyInt 15000; PyInt 1; PyInt 75; PyInt 0; PyInt 0] ;;
   get_spent_calories r) = Ok (PyFloat 0) /\
  (r <- read_package "SWM" [PyInt 720; PyInt 1; PyInt 80; PyInt 25; PyInt 40;
                            PyFloat 2.0; PyFloat 0; PyFloat 1] ;;
   i <- show_training_info r ;; Ok (distance i, calories i))
  = Ok (PyFloat 1.44, PyFloat 80).
Proof.
  repeat (split; [ reflexivity | ]).
  split; [ | split; [ | split; reflexivity ] ].
  - intros a d w c s fa fd fw fc fs Ha Hd Hw Hc Hs Hnz.
    apply (running_calories a d w c s fa fd fw fc fs Ha Hd Hw Hc Hs Hnz).
  - intros a d w l n cs cw p fls q fa fd fw fcs fcw Hp Hq Ha Hd Hw Hcs Hcw Hnz r.
    split; [ apply base_distance; exact Ha | ].
    apply (swimming_calories a d w l n (PyFloat fls) cs cw p q fd fw fcs fcw
             Hp Hq Hd Hw Hcs Hcw Hnz).
Qed.

(** The hypotheses inside [extra_readings_replace_constants] hold for the
    running scenario with the coefficients 0 and 0. *)
Lemma extra_readings_replace_constants_witness :
  get_spent_calories (Running (PyInt 15000) (PyInt 1) (PyInt 75) (PyInt 0) (PyInt 0))
  = Ok (PyFloat ((0 * (15000 * 0.65 / 1000 / 1) - 0) * 75 / 1000 * 1 * 60)%float).
Proof.
  exact (proj1 (proj2 (proj2 (proj2 (proj2 (proj2 (proj2 (proj2
    extra_readings_replace_constants)))))))
    (PyInt 15000) (PyInt 1) (PyInt 75) (PyInt 0) (PyInt 0)
    15000%float 1%float 75%float 0%float 0%float
    eq_refl eq_refl eq_refl eq_refl eq_refl eq_refl).
Defined.

(** ** The dispatcher: unknown codes *)

(** C5 fails on the code: for every code other than "SWM", "RUN" and "WLK"
    (the comparison is case-sensitive) [read_package] raises [KeyError], but
    its message is one fixed text, the same for every code; for "XYZ" it
    holds neither "XYZ" nor the list of valid codes "SWM, RUN, WLK". *)
Theorem unknown_code_error :
  (forall (code : string) (data : list num),
      code <> "SWM" -> code <> "RUN" -> code <> "WLK" ->
      read_package code data = Raise (KeyError unknown_code_message)) /\
  read_package "run" [PyInt 15000; PyInt 1; PyInt 75]
  = Raise (KeyError unknown_code_message) /\
  read_package "XYZ" [PyInt 1; PyInt 2; PyInt 3]
  = Raise (KeyError unknown_code_message) /\
  contains "XYZ" unknown_code_message = false /\
  AVAILABLE_CODES_STR = "SWM, RUN, WLK" /\
  contains AVAILABLE_CODES_STR unknown_code_message = false.
Proof.
  split; [ | repeat split; reflexivity ].
  intros code data Hs Hr Hw. unfold read_package. cbn [lookup CONFORMITY_TO_CLASSES].
  apply String.eqb_neq in Hs, Hr, Hw. rewrite Hs, Hr, Hw. reflexivity.
Qed.

(** The hypotheses inside [unknown_code_error] hold for the code "XYZ". *)
Lemma unknown_code_error_witness :
  read_package "XYZ" [PyInt 1; PyInt 2; PyInt 3]
  = Raise (KeyError unknown_code_message).
Proof.
  apply (proj1 unknown_code_error "XYZ" [PyInt 1; PyInt 2; PyInt 3]);
    discriminate.
Defined.

(** ** The driver *)

(** C8: [main] prints nothing and ends with [AttributeError], for a record
    (the branch that prints is taken only for [None], and there the method
    lookup on [None] fails first) and for [None] alike; the script stops at
    its first package with nothing printed. *)
Theorem main_prints_nothing_and_raises :
  (forall training : option Training,
      main training = ([], Raise AttributeError)) /\
  (forall t : Training, is_None (Some t) = false) /\
  run packages [] = ([], Raise AttributeError).
Proof.
  split; [ | split ].
  - intros [t|]; reflexivity.
  - intros t. reflexivity.
  - reflexivity.
Qed.

(** ** The formatter *)

Lemma round_half_even_nearest (n d : Z) :
  0 <= n -> 0 < d ->
  0 <= round_half_even n d /\
  Z.abs (2 * n - 2 * round_half_even n d * d) <= d.
Proof.
  intros Hn Hd. unfold round_half_even.
  pose proof (Z.div_mod n d ltac:(lia)) as Hdm.
  pose proof (Z.mod_pos_bound n d Hd) as Hr.
  pose proof (Z.div_pos n d Hn Hd) as Hq.
  set (q := n / d) in *. set (r := n mod d) in *.
  destruct (Z.compare_spec (2 * r) d) as [He | Hl | Hg].
  - destruct (Z.even q); split; try lia; nia.
  - split; [ lia | nia ].
  - split; [ lia | nia ].
Qed.

Lemma thousandths_nearest (m : positive) (e : Z) :
  nearest_thousandth m e (thousandths m e).
Proof.
  unfold nearest_thousandth, thousandths.
  destruct (Z.leb_spec 0 e) as [He | He].
  - rewrite Z.max_l by lia. rewrite Z.add_0_r. rewrite Z.pow_0_r.
    assert (0 < 2 ^ e) by (apply Z.pow_pos_nonneg; lia).
    split; [ nia | ].
    replace (2 * (1000 * Z.pos m * 2 ^ e) - 2 * (Z.pos m * 2 ^ e * 1000) * 1)
      with 0 by ring.
    simpl. lia.
  - rewrite Z.max_r by lia. replace (e + - e) with 0 by lia.
    assert (Hd : 0 < 2 ^ (- e)) by (apply Z.pow_pos_nonneg; lia).
    destruct (round_half_even_nearest (Z.pos m * 1000) (2 ^ (- e)) ltac:(lia) Hd)
      as [Hn Hnear].
    split; [ exact Hn | ].
    rewrite Z.pow_0_r.
    replace (2 * (1000 * Z.pos m * 1)) with (2 * (Z.pos m * 1000)) by ring.
    exact Hnear.
Qed.

Lemma digit_is_digit (d : Z) :
  0 <= d <= 9 -> is_digit (digit d) = true /\ digit_value (digit d) = d.
Proof.
  intros Hd.
  assert (H : d = 0 \/ d = 1 \/ d = 2 \/ d = 3 \/ d = 4 \/ d = 5 \/ d = 6
              \/ d = 7 \/ d = 8 \/ d = 9) by lia.
  repeat (destruct H as [-> | H]; [ split; reflexivity | ]).
  subst d. split; reflexivity.
Qed.

Lemma three_digits_spec (r : Z) :
  0 <= r < 1000 ->
  exists c1 c2 c3 : ascii,
    three_digits r = String c1 (String c2 (String c3 EmptyString)) /\
    is_digit c1 = true /\ is_digit c2 = true /\ is_digit c3 = true /\
    100 * digit_value c1 + 10 * digit_value c2 + digit_value c3 = r.
Proof.
  intros Hr.
  assert (H1 : 0 <= r / 100 <= 9)
    by (split; [ apply Z.div_pos; lia
               | apply Z.lt_succ_r; apply Z.div_lt_upper_bound; lia ]).
  assert (H2 : 0 <= r / 10 mod 10 <= 9)
    by (pose proof (Z.mod_pos_bound (r / 10) 10 ltac:(lia)); lia).
  assert (H3 : 0 <= r mod 10 <= 9)
    by (pose proof (Z.mod_pos_bound r 10 ltac:(lia)); lia).
  destruct (digit_is_digit _ H1) as [D1 V1].
  destruct (digit_is_digit _ H2) as [D2 V2].
  destruct (digit_is_digit _ H3) as [D3 V3].
  exists (digit (r / 100)), (digit (r / 10 mod 10)), (digit (r mod 10)).
  repeat (split; [ first [ reflexivity | assumption ] | ]).
  rewrite V1, V2, V3.
  pose proof (Z.div_mod r 10 ltac:(lia)) as E1.
  pose proof (Z.div_mod (r / 10) 10 ltac:(lia)) as E2.
  replace (r / 100) with (r / 10 / 10)
    by (rewrite Z.div_div by lia; reflexivity).
  lia.
Qed.

Lemma format_float_3f_finite (x : float) (s : bool) (m : positive) (e : Z) :
  Prim2SF x = S754_finite s m e ->
  three_decimals_of s m e (format_float_3f x).
Proof.
  intros Hx. unfold three_decimals_of, format_float_3f. rewrite Hx.
  pose proof (thousandths_nearest m e) as Hn.
  set (n := thousandths m e) in *.
  destruct (three_digits_spec (n mod 1000)
              (Z.mod_pos_bound n 1000 ltac:(lia))) as (c1 & c2 & c3 & E & D).
  exists n, c1, c2, c3. split; [ exact Hn | ]. split; [ | exact D ].
  cbv zeta. rewrite E. reflexivity.
Qed.

(** *** What a summary holds *)

Lemma bind_Ok {A B : Type} (c : result A) (k : A -> result B) (b : B) :
  bind c k = Ok b -> exists a, c = Ok a /\ k a = Ok b.
Proof. destruct c as [a|e]; simpl; intros H; [ eauto | discriminate ]. Qed.

Lemma Ok_inj {A : Type} (a b : A) : Ok a = Ok b -> a = b.
Proof.
  intros H.
  exact (f_equal (fun r => match r with Ok x => x | Raise _ => a end) H).
Qed.

Section FloatLeft.
Variables (fi : Z -> Z -> result num) (ff : float -> float -> result num).

(** An operator whose left operand is a float converts the right one. *)
Lemma arith_float_l_inv (a b v : num) :
  is_float a -> arith fi ff a b = Ok v ->
  exists x y, a = PyFloat x /\ as_float b = Ok y /\ ff x y = Ok v.
Proof.
  intros [x ->] H. exists x. unfold arith in H.
  destruct b as [z|y]; cbn [as_float bind] in H.
  - destruct (int_to_float z) as [y|] eqn:E; [ | discriminate ].
    exists y. cbn [bind] in H. repeat split; assumption.
  - exists y. repeat split; assumption.
Qed.

Hypothesis ff_float : forall x y v, ff x y = Ok v -> is_float v.

Lemma arith_float_l_float (a b v : num) :
  is_float a -> arith fi ff a b = Ok v -> is_float v.
Proof.
  intros Ha H. destruct (arith_float_l_inv a b v Ha H) as (x & y & _ & _ & E).
  apply (ff_float x y v E).
Qed.

Lemma arith_float_r_float (a b v : num) :
  is_float b -> arith fi ff a b = Ok v -> is_float v.
Proof.
  intros [y ->] H. unfold arith in H.
  destruct a as [z|x]; cbn [as_float bind] in H.
  - destruct (int_to_float z) as [x|]; [ | discriminate ].
    apply (ff_float x y v H).
  - apply (ff_float x y v H).
Qed.

End FloatLeft.

Lemma Ok_float (x : float) (v : num) : Ok (PyFloat x) = Ok v -> is_float v.
Proof. intros H. exists x. symmetry. apply Ok_inj, H. Qed.

(** True division returns a float. *)
Lemma py_truediv_float (a b v : num) :
  py_truediv a b = Ok v -> exists f, v = PyFloat f.
Proof.
  assert (Hi : forall x y v, int_true_divide x y = Ok v -> exists f, v = PyFloat f).
  { intros x y v0. unfold int_true_divide.
    destruct (y =? 0)%Z; [ discriminate | ].
    destruct (x =? 0)%Z.
    - intros H. eexists.
      exact (f_equal (fun r => match r with Ok x => x | Raise _ => v0 end) (eq_sym H)).
    - destruct (SFdiv_core_binary _ _ _ _ _ _) as [[q e] l].
      destruct (is_inf _); [ discriminate | ].
      intros H. eexists.
      exact (f_equal (fun r => match r with Ok x => x | Raise _ => v0 end) (eq_sym H)). }
  assert (Hf : forall x y v, float_true_divide x y = Ok v -> exists f, v = PyFloat f).
  { intros x y v0. unfold float_true_divide.
    destruct (y =? 0)%float; [ discriminate | ].
    intros H. eexists.
    exact (f_equal (fun r => match r with Ok x => x | Raise _ => v0 end) (eq_sym H)). }
  unfold py_truediv, arith.
  destruct a as [x|x], b as [y|y]; try apply Hi; cbn [as_float bind].
  - destruct (int_to_float x); [ apply Hf | discriminate ].
  - destruct (int_to_float y); [ apply Hf | discriminate ].
  - apply Hf.
Qed.

Lemma py_mul_float_result (a b v : num) :
  is_float a \/ is_float b -> py_mul a b = Ok v -> is_float v.
Proof.
  intros [H | H]; [ apply arith_float_l_float | apply arith_float_r_float ];
    try exact H; intros x y v0; apply Ok_float.
Qed.

Lemma py_add_float_result (a b v : num) :
  is_float a \/ is_float b -> py_add a b = Ok v -> is_float v.
Proof.
  intros [H | H]; [ apply arith_float_l_float | apply arith_float_r_float ];
    try exact H; intros x y v0; apply Ok_float.
Qed.

Lemma py_truediv_divisor (a b v : num) :
  is_float a -> py_truediv a b = Ok v -> returns (as_float b).
Proof.
  intros Ha H. destruct (arith_float_l_inv _ _ a b v Ha H) as (x & y & _ & E & _).
  exists y. exact E.
Qed.

Lemma get_distance_float (t : Training) (s : num) :
  get_distance t = Ok s -> is_float s.
Proof.
  unfold get_distance. intros H. apply bind_Ok in H. destruct H as (x & _ & H).
  apply (py_truediv_float _ _ _ H).
Qed.

(** The mean speed is a float, and its divisor, the duration, converts to
    one. *)
Lemma get_mean_speed_float (t : Training) (v : num) :
  get_mean_speed t = Ok v -> is_float v /\ returns (as_float (duration_of t)).
Proof.
  assert (Hbase : Training_get_mean_speed t = Ok v ->
                  is_float v /\ returns (as_float (duration_of t))).
  { unfold Training_get_mean_speed. intros H.
    apply bind_Ok in H. destruct H as (s & Hs & H).
    split; [ apply (py_truediv_float _ _ _ H) | ].
    apply (py_truediv_divisor s _ v (get_distance_float t s Hs) H). }
  destruct t as [a d w | a d w c s | a d w h | a d w l n ls cs cw];
    try exact Hbase.
  cbn [get_mean_speed duration_of]. unfold Swimming_get_mean_speed. intros H.
  apply bind_Ok in H. destruct H as (x & _ & H).
  apply bind_Ok in H. destruct H as (y & Hy & H).
  split; [ apply (py_truediv_float _ _ _ H) | ].
  apply (py_truediv_divisor y _ v (py_truediv_float _ _ _ Hy) H).
Qed.

Lemma get_spent_calories_float (t : Training) (c : num) :
  get_spent_calories t = Ok c -> is_float c.
Proof.
  destruct t as [a d w | a d w k s | a d w h | a d w l n ls cs cw];
    cbn [get_spent_calories]; intros H.
  - discriminate.
  - apply bind_Ok in H. destruct H as (v & _ & H).
    apply bind_Ok in H. destruct H as (x1 & _ & H).
    apply bind_Ok in H. destruct H as (x2 & _ & H).
    apply bind_Ok in H. destruct H as (x3 & _ & H).
    apply bind_Ok in H. destruct H as (x4 & H4 & H).
    apply bind_Ok in H. destruct H as (x5 & H5 & H).
    apply (fun Hl => py_mul_float_result _ _ _ (or_introl Hl) H).
    apply (fun Hl => py_mul_float_result _ _ _ (or_introl Hl) H5).
    apply (py_truediv_float _ _ _ H4).
  - apply bind_Ok in H. destruct H as (x1 & H1 & H).
    apply bind_Ok in H. destruct H as (v & _ & H).
    apply bind_Ok in H. destruct H as (y1 & _ & H).
    apply bind_Ok in H. destruct H as (y2 & _ & H).
    apply bind_Ok in H. destruct H as (y3 & _ & H).
    apply bind_Ok in H. destruct H as (y4 & _ & H).
    apply bind_Ok in H. destruct H as (x2 & H2 & H).
    apply bind_Ok in H. destruct H as (x3 & H3 & H).
    apply (fun Hl => py_mul_float_result _ _ _ (or_introl Hl) H).
    apply (fun Hl => py_mul_float_result _ _ _ (or_introl Hl) H3).
    apply (fun Hl => py_add_float_result _ _ _ (or_introl Hl) H2).
    apply (fun Hl => py_mul_float_result _ _ _ (or_introl Hl) H1).
    eexists. reflexivity.
  - apply bind_Ok in H. destruct H as (v & Hv & H).
    apply bind_Ok in H. destruct H as (x1 & H1 & H).
    apply bind_Ok in H. destruct H as (x2 & H2 & H).
    apply (fun Hl => py_mul_float_result _ _ _ (or_introl Hl) H).
    apply (fun Hl => py_mul_float_result _ _ _ (or_introl Hl) H2).
    apply (fun Hl => py_add_float_result _ _ _ (or_introl Hl) H1).
    apply (get_mean_speed_float _ v Hv).
Qed.

(** The message of a summary that [show_training_info] returns. *)
Lemma summary_message (t : Training) (info : InfoMessage) :
  show_training_info t = Ok info ->
  exists fd s v c : float,
    training_type info = class_name t /\
    as_float (duration info) = Ok fd /\
    distance info = PyFloat s /\ speed info = PyFloat v /\
    calories info = PyFloat c /\
    get_message info
    = Ok (report_line (class_name t) (format_float_3f fd) (format_float_3f s)
            (format_float_3f v) (format_float_3f c)).
Proof.
  unfold show_training_info. intros H.
  apply bind_Ok in H. destruct H as (s & Hs & H).
  apply bind_Ok in H. destruct H as (v & Hv & H).
  apply bind_Ok in H. destruct H as (c & Hc & H).
  apply Ok_inj in H. subst info. cbn [training_type duration distance speed calories].
  destruct (get_distance_float t s Hs) as [fs ->].
  destruct (get_mean_speed_float t v Hv) as [[fv ->] [fd Hd]].
  destruct (get_spent_calories_float t c Hc) as [fc ->].
  exists fd, fs, fv, fc. repeat (split; [ first [ reflexivity | assumption ] | ]).
  unfold get_message, format_3f.
  cbn [training_type duration distance speed calories].
  rewrite Hd. reflexivity.
Qed.

(** C7: [get_message] returns the line
    "Тип тренировки: T; Длительность: D ч.; Дистанция: S км;
     Ср. скорость: V км/ч; Потрачено ккал: C."
    where T is the type field and D, S, V, C are the four numeric fields
    under [.3f]; for every summary that [show_training_info] returns the
    four fields do format and T is the name of the record's class; a finite
    float under [.3f] is written with exactly three decimals, rounded to the
    nearest thousandth; and the three sample packages give the lines
    shown. *)
Theorem get_message_template :
  (forall (info : InfoMessage) (d s v c : string),
      format_3f (duration info) = Ok d -> format_3f (distance info) = Ok s ->
      format_3f (speed info) = Ok v -> format_3f (calories info) = Ok c ->
      get_message info = Ok (report_line (training_type info) d s v c)) /\
  (forall (t : Training) (info : InfoMessage),
      show_training_info t = Ok info ->
      exists fd s v c : float,
        training_type info = class_name t /\
        as_float (duration info) = Ok fd /\
        distance info = PyFloat s /\ speed info = PyFloat v /\
        calories info = PyFloat c /\
        get_message info
        = Ok (report_line (class_name t) (format_float_3f fd)
                (format_float_3f s) (format_float_3f v) (format_float_3f c))) /\
  (forall (x : float) (sign : bool) (m : positive) (e : Z),
      Prim2SF x = S754_finite sign m e ->
      exists s : string,
        format_3f (PyFloat x) = Ok s /\ three_decimals_of sign m e s) /\
  (forall (t : Training) (info : InfoMessage),
      show_training_info t = Ok info ->
      training_type info = class_name t /\
      duration info = duration_of t /\
      get_distance t = Ok (distance info) /\
      get_mean_speed t = Ok (speed info) /\
      get_spent_calories t = Ok (calories info)) /\
  (forall a d w c s, class_name (Running a d w c s) = "Running") /\
  (forall a d w h, class_name (SportsWalking a d w h) = "SportsWalking") /\
  (forall a d w l n ls cs cw,
      class_name (Swimming a d w l n ls cs cw) = "Swimming") /\
  message_of swim_scenario
  = Ok "Тип тренировки: Swimming; Длительность: 1.000 ч.; Дистанция: 0.994 км; Ср. скорость: 1.000 км/ч; Потрачено ккал: 336.000." /\
  message_of run_scenario
  = Ok "Тип тренировки: Running; Длительность: 1.000 ч.; Дистанция: 9.750 км; Ср. скорость: 9.750 км/ч; Потрачено ккал: 699.750." /\
  message_of walk_scenario
  = Ok "Тип тренировки: SportsWalking; Длительность: 1.000 ч.; Дистанция: 5.850 км; Ср. скорость: 5.850 км/ч; Потрачено ккал: 157.500.".
Proof.
  split; [ | split; [ | split; [ | split ] ] ].
  - intros info d s v c Hd Hs Hv Hc. unfold get_message.
    rewrite Hd, Hs, Hv, Hc. cbn [bind]. unfold report_line.
    reflexivity.
  - apply summary_message.
  - intros x sign m e Hx. exists (format_float_3f x).
    split; [ reflexivity | apply format_float_3f_finite; exact Hx ].
  - intros t info H. unfold show_training_info in H.
    destruct (get_distance t) as [s|]; [ | discriminate ].
    destruct (get_mean_speed t) as [v|]; [ | discriminate ].
    destruct (get_spent_calories t) as [c|]; [ | discriminate ].
    cbn [bind] in H. apply (f_equal (fun r => match r with Ok i => Some i | Raise _ => None end)) in H.
    injection H as <-. repeat split.
  - repeat (split; [ reflexivity | ]). vm_compute. reflexivity.
Qed.

(** The hypotheses inside [get_message_template] hold for the running
    scenario. *)
Lemma get_message_template_witness :
  get_message {| training_type := "Running"; duration := PyInt 1;
                 distance := PyFloat 9.75; speed := PyFloat 9.75;
                 calories := PyFloat 699.75 |}
  = Ok (report_line "Running" "1.000" "9.750" "9.750" "699.750").
Proof.
  apply (proj1 get_message_template
           {| training_type := "Running"; duration := PyInt 1;
              distance := PyFloat 9.75; speed := PyFloat 9.75;
              calories := PyFloat 699.75 |}); reflexivity.
Defined.

(** ** Faults of the computations *)

Lemma only_overflow_bind {A B : Type} (c : result A) (k : A -> result B) :
  only_overflow c -> (forall a, c = Ok a -> only_overflow (k a)) ->
  only_overflow (bind c k).
Proof. destruct c as [a|e]; simpl; intros Hc Hk; [ apply Hk; reflexivity | exact Hc ]. Qed.

Lemma int_to_float_only_overflow (z : Z) : only_overflow (int_to_float z).
Proof. unfold int_to_float. destruct (is_inf _); simpl; auto. Qed.

Lemma as_float_only_overflow (v : num) : only_overflow (as_float v).
Proof. destruct v; simpl; [ apply int_to_float_only_overflow | exact I ]. Qed.

Lemma as_float_nonzero (v : num) (f : float) :
  as_float v = Ok f -> is_zero v = false -> (f =? 0)%float = false.
Proof.
  destruct v as [z|x]; simpl; intros H Hz.
  - apply (int_to_float_nonzero z f H). apply Z.eqb_neq. exact Hz.
  - apply (f_equal (fun r => match r with Ok x => x | Raise _ => nan end)) in H.
    subst f. exact Hz.
Qed.

Lemma as_float_zero (v : num) (f : float) :
  as_float v = Ok f -> is_zero v = true -> (f =? 0)%float = true.
Proof.
  destruct v as [z|x]; simpl; intros H Hz.
  - apply Z.eqb_eq in Hz. subst z. rewrite int_to_float_zero in H.
    apply (f_equal (fun r => match r with Ok x => x | Raise _ => nan end)) in H.
    subst f. reflexivity.
  - apply (f_equal (fun r => match r with Ok x => x | Raise _ => nan end)) in H.
    subst f. exact Hz.
Qed.


Section ArithFaults.
Variables (fi : Z -> Z -> result num) (ff : float -> float -> result num).

Lemma arith_only_overflow (a b : num) :
  (forall x y, only_overflow (fi x y)) ->
  (forall x y, only_overflow (ff x y)) ->
  only_overflow (arith fi ff a b).
Proof.
  intros Hi Hf. unfold arith.
  destruct a as [x|x], b as [y|y]; try apply Hi;
    repeat (apply only_overflow_bind; [ apply as_float_only_overflow | intros ? _ ]);
    apply Hf.
Qed.

Lemma arith_nonzero_only_overflow (a b : num) :
  (forall x y, y <> 0 -> only_overflow (fi x y)) ->
  (forall x y, (y =? 0)%float = false -> only_overflow (ff x y)) ->
  is_zero b = false ->
  only_overflow (arith fi ff a b).
Proof.
  intros Hi Hf Hb. unfold arith.
  destruct a as [x|x], b as [y|y].
  - apply Hi. apply Z.eqb_neq. exact Hb.
  - apply only_overflow_bind; [ apply as_float_only_overflow | intros fx _ ].
    apply Hf. exact Hb.
  - apply only_overflow_bind; [ exact I | intros fx _ ].
    apply only_overflow_bind; [ apply as_float_only_overflow | intros fy Hy ].
    apply Hf. apply (as_float_nonzero (PyInt y) fy Hy Hb).
  - apply Hf. exact Hb.
Qed.

End ArithFaults.

Lemma py_mul_only_overflow (a b : num) : only_overflow (py_mul a b).
Proof. apply arith_only_overflow; intros; exact I. Qed.

Lemma py_add_only_overflow (a b : num) : only_overflow (py_add a b).
Proof. apply arith_only_overflow; intros; exact I. Qed.

Lemma py_sub_only_overflow (a b : num) : only_overflow (py_sub a b).
Proof. apply arith_only_overflow; intros; exact I. Qed.

Lemma py_pow2_only_overflow (a : num) : only_overflow (py_pow2 a).
Proof. destruct a; simpl; [ exact I | ]. destruct (pow2_overflows f); simpl; auto. Qed.

Lemma py_truediv_only_overflow (a b : num) :
  is_zero b = false -> only_overflow (py_truediv a b).
Proof.
  apply arith_nonzero_only_overflow.
  - intros x y Hy. unfold int_true_divide.
    destruct (Z.eqb_spec y 0) as [E | _]; [ contradiction | ].
    destruct (x =? 0)%Z; [ exact I | ].
    destruct (SFdiv_core_binary _ _ _ _ _ _) as [[q e] l].
    destruct (is_inf _); simpl; auto.
  - intros x y Hy. unfold float_true_divide. rewrite Hy. exact I.
Qed.



Lemma M_IN_KM_not_zero : is_zero M_IN_KM = false.
Proof. reflexivity. Qed.

Lemma get_distance_only_overflow (t : Training) : only_overflow (get_distance t).
Proof.
  unfold get_distance.
  apply only_overflow_bind; [ apply py_mul_only_overflow | intros x _ ].
  apply py_truediv_only_overflow, M_IN_KM_not_zero.
Qed.





(** [read_package] returns an instance of one of the three subclasses. *)
Lemma read_package_subclass (code : string) (data : list num) (t : Training) :
  read_package code data = Ok t -> class_name t <> "Training".
Proof.
  unfold read_package. cbn [lookup CONFORMITY_TO_CLASSES].
  destruct (String.eqb code "SWM"); [ | destruct (String.eqb code "RUN");
    [ | destruct (String.eqb code "WLK"); [ | discriminate ] ] ].
  - unfold new_Swimming. destruct (Dataclass.init _ _) as [vs|]; [ | discriminate ].
    cbn [bind].
    do 8 (destruct vs as [|? vs]; [ discriminate | ]).
    destruct vs; [ | discriminate ].
    intros H. apply (f_equal (fun r => match r with Ok x => class_name x | Raise _ => EmptyString end)) in H.
    rewrite <- H. discriminate.
  - unfold new_Running. destruct (Dataclass.init _ _) as [vs|]; [ | discriminate ].
    cbn [bind].
    do 5 (destruct vs as [|? vs]; [ discriminate | ]).
    destruct vs; [ | discriminate ].
    intros H. apply (f_equal (fun r => match r with Ok x => class_name x | Raise _ => EmptyString end)) in H.
    rewrite <- H. discriminate.
  - unfold new_SportsWalking. destruct (Dataclass.init _ _) as [vs|]; [ | discriminate ].
    cbn [bind].
    do 4 (destruct vs as [|? vs]; [ discriminate | ]).
    destruct vs; [ | discriminate ].
    intros H. apply (f_equal (fun r => match r with Ok x => class_name x | Raise _ => EmptyString end)) in H.
    rewrite <- H. discriminate.
Qed.


(** With float readings only: a duration of 1e-200 hours makes the walking
    speed too large to be squared. *)
Lemma walking_speed_overflow :
  (r <- read_package "WLK" [PyFloat 9000; PyFloat 1e-200; PyFloat 75; PyFloat 180] ;;
   show_training_info r) = Raise OverflowError.
Proof. vm_compute. reflexivity. Qed.



(** ** Distance and the action count *)




(* ===================================================================== *)
(** * Further properties of the code                                      *)
(* ===================================================================== *)

(** ** Construction: what [read_package] builds *)

(** The generated [__init__] fails with [TypeError] only. *)
Lemma init_faults (fs : list Dataclass.field) (args : list num) :
  (exists vs, Dataclass.init fs args = Ok vs)
  \/ Dataclass.init fs args = Raise TypeError.
Proof.
  revert args. induction fs as [|f fs IH]; intros [|a args]; simpl; eauto.
  - destruct (Dataclass.fdefault f) as [d|]; [ | auto ].
    destruct (IH []) as [[vs ->] | ->]; simpl; eauto.
  - destruct (IH args) as [[vs ->] | ->]; simpl; eauto.
Qed.

(** The positional arguments are the first values, and every field has a
    value. *)
Lemma init_prefix (fs : list Dataclass.field) (args vs : list num) :
  Dataclass.init fs args = Ok vs ->
  firstn (List.length args) vs = args /\ List.length vs = List.length fs.
Proof.
  revert args vs. induction fs as [|f fs IH]; intros [|a args] vs H; simpl in H.
  - apply Ok_inj in H. subst vs. split; reflexivity.
  - discriminate.
  - destruct (Dataclass.fdefault f) as [d|]; [ | discriminate ].
    apply bind_Ok in H. destruct H as (vs' & Hvs & H). apply Ok_inj in H. subst vs.
    destruct (IH [] vs' Hvs) as [_ Hlen]. split; [ reflexivity | simpl; lia ].
  - apply bind_Ok in H. destruct H as (vs' & Hvs & H). apply Ok_inj in H. subst vs.
    destruct (IH args vs' Hvs) as [Hpre Hlen]. simpl. rewrite Hpre.
    split; [ reflexivity | lia ].
Qed.

Lemma new_Swimming_values (data : list num) (t : Training) :
  new_Swimming data = Ok t ->
  class_name t = "Swimming" /\ Dataclass.init Swimming_fields data = Ok (field_values t).
Proof.
  unfold new_Swimming. intros H. apply bind_Ok in H. destruct H as (vs & Hvs & H).
  rewrite Hvs.
  do 8 (destruct vs as [|? vs]; [ discriminate | ]).
  destruct vs; [ | discriminate ].
  apply Ok_inj in H. subst t. split; reflexivity.
Qed.

Lemma new_Running_values (data : list num) (t : Training) :
  new_Running data = Ok t ->
  class_name t = "Running" /\ Dataclass.init Running_fields data = Ok (field_values t).
Proof.
  unfold new_Running. intros H. apply bind_Ok in H. destruct H as (vs & Hvs & H).
  rewrite Hvs.
  do 5 (destruct vs as [|? vs]; [ discriminate | ]).
  destruct vs; [ | discriminate ].
  apply Ok_inj in H. subst t. split; reflexivity.
Qed.

Lemma new_SportsWalking_values (data : list num) (t : Training) :
  new_SportsWalking data = Ok t ->
  class_name t = "SportsWalking"
  /\ Dataclass.init SportsWalking_fields data = Ok (field_values t).
Proof.
  unfold new_SportsWalking. intros H. apply bind_Ok in H. destruct H as (vs & Hvs & H).
  rewrite Hvs.
  do 4 (destruct vs as [|? vs]; [ discriminate | ]).
  destruct vs; [ | discriminate ].
  apply Ok_inj in H. subst t. split; reflexivity.
Qed.

(** The three cases of a code that the table holds. *)
Lemma read_package_cases (code : string) (data : list num) :
  (code = "SWM" /\ read_package code data = new_Swimming data)
  \/ (code = "RUN" /\ read_package code data = new_Running data)
  \/ (code = "WLK" /\ read_package code data = new_SportsWalking data)
  \/ (~ In code codes
      /\ read_package code data = Raise (KeyError unknown_code_message)).
Proof.
  unfold read_package. cbn [lookup CONFORMITY_TO_CLASSES].
  destruct (String.eqb_spec code "SWM") as [-> | Hs]; [ left; split; reflexivity | ].
  destruct (String.eqb_spec code "RUN") as [-> | Hr];
    [ right; left; split; reflexivity | ].
  destruct (String.eqb_spec code "WLK") as [-> | Hw];
    [ right; right; left; split; reflexivity | ].
  right; right; right. split; [ | reflexivity ].
  simpl. intros [H | [H | [H | []]]]; congruence.
Qed.

(** X1: a record that [read_package] returns is an instance of the class
    registered under the code, and it holds the readings, in order, as its
    first field values (none is dropped, reordered or changed). *)
Theorem read_package_stores_readings :
  forall (code : string) (data : list num) (t : Training),
    read_package code data = Ok t ->
    In code codes /\
    class_name t = registered_name code /\
    firstn (List.length data) (field_values t) = data /\
    (List.length data <= List.length (field_values t))%nat.
Proof.
  intros code data t H.
  assert (Hgen : forall fs, Dataclass.init fs data = Ok (field_values t) ->
            firstn (List.length data) (field_values t) = data /\
            (List.length data <= List.length (field_values t))%nat).
  { intros fs Hi. destruct (init_prefix fs data _ Hi) as [Hpre Hlen].
    split; [ exact Hpre | ].
    rewrite <- Hpre at 1. rewrite length_firstn. lia. }
  destruct (read_package_cases code data)
    as [[-> E] | [[-> E] | [[-> E] | [_ E]]]]; rewrite E in H.
  - destruct (new_Swimming_values data t H) as [Hc Hi].
    split; [ simpl; auto | ]. split; [ exact Hc | apply (Hgen _ Hi) ].
  - destruct (new_Running_values data t H) as [Hc Hi].
    split; [ simpl; auto | ]. split; [ exact Hc | apply (Hgen _ Hi) ].
  - destruct (new_SportsWalking_values data t H) as [Hc Hi].
    split; [ simpl; auto | ]. split; [ exact Hc | apply (Hgen _ Hi) ].
  - discriminate.
Qed.

(** The hypothesis of [read_package_stores_readings] holds for the walking
    package of the script. *)
Lemma read_package_stores_readings_witness :
  class_name walk_scenario = registered_name "WLK" /\
  firstn 4 (field_values walk_scenario)
  = [PyInt 9000; PyInt 1; PyInt 75; PyInt 180].
Proof.
  destruct (read_package_stores_readings "WLK"
              [PyInt 9000; PyInt 1; PyInt 75; PyInt 180] walk_scenario eq_refl)
    as (_ & Hc & Hpre & _).
  split; [ exact Hc | exact Hpre ].
Defined.

(** X2: [read_package] raises nothing but [KeyError] and [TypeError]: the
    [KeyError] exactly for the codes that the table does not hold, whatever
    the readings are, and the [TypeError] for a code of the table only. *)
Theorem read_package_faults :
  forall (code : string) (data : list num),
    match read_package code data with
    | Ok t => In code codes
    | Raise TypeError => In code codes
    | Raise (KeyError msg) => ~ In code codes /\ msg = unknown_code_message
    | Raise _ => False
    end.
Proof.
  intros code data.
  assert (Hnew : forall (fs : list Dataclass.field) (k : list num -> result Training),
            (forall vs, (exists t, k vs = Ok t) \/ k vs = Raise TypeError) ->
            (exists t, bind (Dataclass.init fs data) k = Ok t)
            \/ bind (Dataclass.init fs data) k = Raise TypeError).
  { intros fs k Hk. destruct (init_faults fs data) as [[vs ->] | ->]; simpl; auto. }
  destruct (read_package_cases code data)
    as [[-> E] | [[-> E] | [[-> E] | [Hn E]]]]; rewrite E.
  - destruct (Hnew Swimming_fields
                (fun vs => match vs with
                           | [a; d; w; l; n; ls; cs; cw] => Ok (Swimming a d w l n ls cs cw)
                           | _ => Raise TypeError
                           end)) as [[t Ht] | Ht].
    { intros vs. do 8 (destruct vs as [|? vs]; [ auto | ]). destruct vs; eauto. }
    + unfold new_Swimming. rewrite Ht. simpl. auto.
    + unfold new_Swimming. rewrite Ht. simpl. auto.
  - destruct (Hnew Running_fields
                (fun vs => match vs with
                           | [a; d; w; c; s] => Ok (Running a d w c s)
                           | _ => Raise TypeError
                           end)) as [[t Ht] | Ht].
    { intros vs. do 5 (destruct vs as [|? vs]; [ auto | ]). destruct vs; eauto. }
    + unfold new_Running. rewrite Ht. simpl. auto.
    + unfold new_Running. rewrite Ht. simpl. auto.
  - destruct (Hnew SportsWalking_fields
                (fun vs => match vs with
                           | [a; d; w; h] => Ok (SportsWalking a d w h)
                           | _ => Raise TypeError
                           end)) as [[t Ht] | Ht].
    { intros vs. do 4 (destruct vs as [|? vs]; [ auto | ]). destruct vs; eauto. }
    + unfold new_SportsWalking. rewrite Ht. simpl. auto.
    + unfold new_SportsWalking. rewrite Ht. simpl. auto.
  - split; [ exact Hn | reflexivity ].
Qed.

(** ** The base class *)

(** X3: the base class [Training] has no calorie formula: for an instance of
    it [show_training_info] never returns, and it raises
    [NotImplementedError] as soon as distance and mean speed are computed
    (readings in the range of floats, nonzero duration); [read_package]
    never builds such an instance. *)
Theorem base_training_has_no_summary :
  (forall a d w : num,
      new_Training [a; d; w] = Ok (BaseTraining a d w) /\
      ~ returns (show_training_info (BaseTraining a d w))) /\
  (forall (a d w : num) (fa fd : float),
      as_float a = Ok fa -> as_float d = Ok fd -> is_zero d = false ->
      show_training_info (BaseTraining a d w) = Raise NotImplementedError) /\
  (forall (code : string) (data : list num) (a d w : num),
      read_package code data <> Ok (BaseTraining a d w)).
Proof.
  split; [ | split ].
  - intros a d w. split; [ reflexivity | ].
    intros [info H]. unfold show_training_info in H.
    apply bind_Ok in H. destruct H as (s & _ & H).
    apply bind_Ok in H. destruct H as (v & _ & H).
    apply bind_Ok in H. destruct H as (c & Hc & _). discriminate Hc.
  - intros a d w fa fd Ha Hd Hz.
    pose proof (as_float_nonzero d fd Hd Hz) as Hnz.
    unfold show_training_info.
    assert (Hs : get_distance (BaseTraining a d w)
                 = Ok (PyFloat (fa * 0.65 / 1000)%float))
      by (apply base_distance; exact Ha).
    rewrite Hs. cbn [bind get_mean_speed]. unfold Training_get_mean_speed.
    rewrite Hs. cbn [bind duration_of].
    rewrite (py_truediv_float_l _ d fd Hd Hnz). reflexivity.
  - intros code data a d w H.
    apply (read_package_subclass code data _ H). reflexivity.
Qed.

(** The hypotheses inside [base_training_has_no_summary] hold for the
    readings of the running package. *)
Lemma base_training_has_no_summary_witness :
  show_training_info (BaseTraining (PyInt 15000) (PyInt 1) (PyInt 75))
  = Raise NotImplementedError.
Proof.
  apply (proj1 (proj2 base_training_has_no_summary)
           (PyInt 15000) (PyInt 1) (PyInt 75) 15000%float 1%float);
    reflexivity.
Defined.

(** ** Zero divisors other than the duration *)







(** ** The message *)

(** X6: [get_message] returns exactly when each of its four numeric fields
    is a float or an int in the range of floats; its only error is
    [OverflowError], for an int field beyond that range. *)
Theorem get_message_faults :
  forall info : InfoMessage,
    (returns (get_message info)
     <-> returns (as_float (duration info)) /\ returns (as_float (distance info))
         /\ returns (as_float (speed info)) /\ returns (as_float (calories info)))
    /\ only_overflow (get_message info).
Proof.
  intros info. unfold get_message, format_3f.
  pose proof (as_float_only_overflow (duration info)) as Od.
  pose proof (as_float_only_overflow (distance info)) as Os.
  pose proof (as_float_only_overflow (speed info)) as Ov.
  pose proof (as_float_only_overflow (calories info)) as Oc.
  destruct (as_float (duration info)) as [fd|ed]; cbn [bind].
  2:{ split; [ | exact Od ].
      split; [ intros [x H]; discriminate | intros [[x H] _]; discriminate ]. }
  destruct (as_float (distance info)) as [fs|es]; cbn [bind].
  2:{ split; [ | exact Os ].
      split; [ intros [x H]; discriminate | intros (_ & [x H] & _); discriminate ]. }
  destruct (as_float (speed info)) as [fv|ev]; cbn [bind].
  2:{ split; [ | exact Ov ].
      split; [ intros [x H]; discriminate | intros (_ & _ & [x H] & _); discriminate ]. }
  destruct (as_float (calories info)) as [fc|ec]; cbn [bind].
  2:{ split; [ | exact Oc ].
      split; [ intros [x H]; discriminate | intros (_ & _ & _ & [x H]); discriminate ]. }
  split; [ | exact I ].
  split; [ intros _; repeat split; eexists; reflexivity | intros _; eexists; reflexivity ].
Qed.

(** ** The script *)

(** X7: the loop of the script never gets past its first package and never
    prints: whatever the packages are, it ends with the error of building the
    first record or, when that record is built, with the [AttributeError] of
    [main]; only an empty list of packages ends without error. *)
Theorem run_stops_at_first_package :
  (forall out : stdout, run [] out = (out, Ok tt)) /\
  (forall (code : string) (data : list num) (rest : list (string * list num))
          (out : stdout),
      run ((code, data) :: rest) out
      = (out, Raise match read_package code data with
                    | Ok _ => AttributeError
                    | Raise e => e
                    end)).
Proof.
  split; [ reflexivity | ].
  intros code data rest out. cbn [run].
  destruct (read_package code data) as [t|e]; [ | reflexivity ].
  cbn [main is_None]. rewrite app_nil_r. reflexivity.
Qed.

(** ** The errors of a summary *)

Lemma arithmetic_faults_bind {A B : Type} (c : result A) (k : A -> result B) :
  arithmetic_faults_only c -> (forall a, arithmetic_faults_only (k a)) ->
  arithmetic_faults_only (bind c k).
Proof. destruct c as [a|e]; simpl; intros Hc Hk; [ apply Hk | exact Hc ]. Qed.

Lemma only_overflow_arithmetic {A : Type} (c : result A) :
  only_overflow c -> arithmetic_faults_only c.
Proof. destruct c; simpl; auto. Qed.

Lemma arith_arithmetic_faults
    (fi : Z -> Z -> result num) (ff : float -> float -> result num) (a b : num) :
  (forall x y, arithmetic_faults_only (fi x y)) ->
  (forall x y, arithmetic_faults_only (ff x y)) ->
  arithmetic_faults_only (arith fi ff a b).
Proof.
  intros Hi Hf. unfold arith.
  destruct a as [x|x], b as [y|y]; try apply Hi;
    repeat (apply arithmetic_faults_bind;
            [ apply only_overflow_arithmetic, as_float_only_overflow | intros ? ]);
    apply Hf.
Qed.

Lemma py_truediv_arithmetic_faults (a b : num) :
  arithmetic_faults_only (py_truediv a b).
Proof.
  apply arith_arithmetic_faults.
  - intros x y. unfold int_true_divide.
    destruct (y =? 0)%Z; [ simpl; auto | ].
    destruct (x =? 0)%Z; [ exact I | ].
    destruct (SFdiv_core_binary _ _ _ _ _ _) as [[q e] l].
    destruct (is_inf _); simpl; auto.
  - intros x y. unfold float_true_divide. destruct (y =? 0)%float; simpl; auto.
Qed.

Lemma py_floordiv_arithmetic_faults (a b : num) :
  arithmetic_faults_only (py_floordiv a b).
Proof.
  apply arith_arithmetic_faults.
  - intros x y. unfold int_floor_div. destruct (y =? 0)%Z; simpl; auto.
  - intros x y. unfold float_floor_div. destruct (y =? 0)%float; simpl; auto.
Qed.

(** A step that raises [OverflowError] at most, or a division. *)
Ltac arithmetic_step :=
  first
    [ apply py_truediv_arithmetic_faults
    | apply py_floordiv_arithmetic_faults
    | apply only_overflow_arithmetic;
      first [ apply py_mul_only_overflow | apply py_add_only_overflow
            | apply py_sub_only_overflow | apply py_pow2_only_overflow ] ].

Lemma get_distance_arithmetic_faults (t : Training) :
  arithmetic_faults_only (get_distance t).
Proof.
  apply only_overflow_arithmetic, get_distance_only_overflow.
Qed.

Lemma get_mean_speed_arithmetic_faults (t : Training) :
  arithmetic_faults_only (get_mean_speed t).
Proof.
  assert (Hbase : arithmetic_faults_only (Training_get_mean_speed t)).
  { unfold Training_get_mean_speed.
    apply arithmetic_faults_bind; [ apply get_distance_arithmetic_faults | intros x ].
    arithmetic_step. }
  destruct t; try exact Hbase.
  cbn [get_mean_speed]. unfold Swimming_get_mean_speed.
  repeat (apply arithmetic_faults_bind; [ arithmetic_step | intros ? ]).
  arithmetic_step.
Qed.

Lemma get_spent_calories_arithmetic_faults (t : Training) :
  class_name t <> "Training" -> arithmetic_faults_only (get_spent_calories t).
Proof.
  intros Hc. pose proof (get_mean_speed_arithmetic_faults t) as Hs.
  destruct t as [a d w | a d w c s | a d w h | a d w l n ls cs cw];
    cbn [get_spent_calories].
  - exfalso. apply Hc. reflexivity.
  - apply arithmetic_faults_bind; [ exact Hs | intros v ].
    repeat (apply arithmetic_faults_bind; [ arithmetic_step | intros ? ]).
    arithmetic_step.
  - apply arithmetic_faults_bind; [ arithmetic_step | intros x ].
    apply arithmetic_faults_bind; [ exact Hs | intros v ].
    repeat (apply arithmetic_faults_bind; [ arithmetic_step | intros ? ]).
    arithmetic_step.
  - apply arithmetic_faults_bind; [ exact Hs | intros v ].
    repeat (apply arithmetic_faults_bind; [ arithmetic_step | intros ? ]).
    arithmetic_step.
Qed.

(** X8: for every record that [read_package] returns, building the summary
    and its message either succeeds or raises [ZeroDivisionError] or
    [OverflowError], nothing else; and once [show_training_info] has
    returned, [get_message] does not fail. *)
Theorem summary_errors_are_arithmetic :
  forall (code : string) (data : list num) (t : Training),
    read_package code data = Ok t ->
    arithmetic_faults_only (show_training_info t) /\
    arithmetic_faults_only (message_of t) /\
    (forall info, show_training_info t = Ok info -> returns (get_message info)).
Proof.
  intros code data t Ht.
  pose proof (read_package_subclass code data t Ht) as Hc.
  assert (Hshow : arithmetic_faults_only (show_training_info t)).
  { unfold show_training_info.
    apply arithmetic_faults_bind; [ apply get_distance_arithmetic_faults | intros s ].
    apply arithmetic_faults_bind; [ apply get_mean_speed_arithmetic_faults | intros v ].
    apply arithmetic_faults_bind;
      [ apply get_spent_calories_arithmetic_faults, Hc | intros c ].
    exact I. }
  assert (Hmsg : forall info, show_training_info t = Ok info ->
                   returns (get_message info)).
  { intros info Hi.
    destruct (summary_message t info Hi) as (fd & s & v & c & _ & _ & _ & _ & _ & E).
    eexists. exact E. }
  split; [ exact Hshow | ]. split; [ | exact Hmsg ].
  unfold message_of.
  destruct (show_training_info t) as [info|e] eqn:E; [ | exact Hshow ].
  cbn [bind]. destruct (Hmsg info eq_refl) as [line ->]. exact I.
Qed.

(** The hypothesis of [summary_errors_are_arithmetic] holds for the running
    package of the script. *)
Lemma summary_errors_are_arithmetic_witness :
  arithmetic_faults_only (message_of run_scenario).
Proof.
  exact (proj1 (proj2
    (summary_errors_are_arithmetic "RUN" [PyInt 15000; PyInt 1; PyInt 75]
       run_scenario eq_refl))).
Defined.

(** ** Int readings in the message *)

Local Close Scope string_scope.

(** The thousandths of an integer value. *)
Lemma thousandths_of_integer (m : positive) (e z : Z) :
  e <= 0 -> 0 <= z -> Z.pos m = z * 2 ^ (- e) -> thousandths m e = z * 1000.
Proof.
  intros He Hz Hm. unfold thousandths.
  destruct (Z.leb_spec 0 e) as [H0 | Hneg].
  - assert (e = 0) by lia. subst e. simpl in Hm. rewrite Hm. simpl. lia.
  - assert (Hd : 0 < 2 ^ (- e)) by (apply Z.pow_pos_nonneg; lia).
    unfold round_half_even. rewrite Hm.
    replace (z * 2 ^ (- e) * 1000) with (z * 1000 * 2 ^ (- e)) by ring.
    rewrite Z.mod_mul, Z.div_mul by lia.
    replace (2 * 0) with 0 by lia.
    destruct (Z.compare_spec 0 (2 ^ (- e))); try lia.
Qed.

Local Open Scope string_scope.

(** X9: an int below [2^53] in magnitude is printed under [.3f] as the int
    itself followed by ".000": a minus sign if it is negative, its decimal
    digits, and three zeros. *)
Theorem format_3f_of_int :
  forall z : Z,
    (Z.abs z < 2 ^ 53)%Z ->
    format_3f (PyInt z)
    = Ok (sign_str (z <? 0)%Z ++ str_of_nonneg (Z.abs z) ++ ".000").
Proof.
  intros z Hz. destruct (Z.eq_dec z 0) as [-> | Hnz]; [ reflexivity | ].
  destruct (int_to_float_small z Hnz Hz) as (f & m & Hf & Sf & Hm & Hd).
  unfold format_3f. cbn [as_float]. rewrite Hf. cbn [bind].
  unfold format_float_3f. rewrite Sf.
  assert (Hdz : (1 <= digits z <= 53)%Z).
  { pose proof (proj2 (digits_pos_iff z) Hnz).
    split; [ lia | ]. rewrite <- digits_abs. apply digits_le; lia. }
  rewrite (thousandths_of_integer m (digits z - 53) (Z.abs z));
    [ | lia | lia | rewrite Hm; f_equal; f_equal; lia ].
  rewrite Z.div_mul, Z.mod_mul by lia. reflexivity.
Qed.

(** The hypothesis of [format_3f_of_int] holds for the duration of the
    sample packages and for a negative int. *)
Lemma format_3f_of_int_witness :
  format_3f (PyInt 1) = Ok "1.000" /\ format_3f (PyInt (-15000)) = Ok "-15000.000".
Proof.
  split.
  - exact (format_3f_of_int 1 eq_refl).
  - exact (format_3f_of_int (-15000) eq_refl).
Defined.

(** ** Int readings and float readings *)

Lemma as_float_floated (v : num) : as_float (floated v) = as_float v.
Proof.
  unfold floated. destruct v as [z|x]; [ | reflexivity ]. cbn [as_float].
  destruct (int_to_float z) as [f|e] eqn:E; [ reflexivity | exact E ].
Qed.

Section Floated.
Variables (fi : Z -> Z -> result num) (ff : float -> float -> result num).

Lemma arith_float_l_eq (x : float) (b : num) :
  arith fi ff (PyFloat x) b = (y <- as_float b ;; ff x y).
Proof. destruct b; reflexivity. Qed.

Lemma arith_float_r_eq (a : num) (y : float) :
  arith fi ff a (PyFloat y) = (x <- as_float a ;; ff x y).
Proof. destruct a; reflexivity. Qed.

Lemma arith_floated_r (a b : num) :
  is_float a -> arith fi ff a (floated b) = arith fi ff a b.
Proof.
  intros [x ->]. rewrite !arith_float_l_eq, as_float_floated. reflexivity.
Qed.

Lemma arith_floated_l (a b : num) :
  is_float b -> arith fi ff (floated a) b = arith fi ff a b.
Proof.
  intros [y ->]. rewrite !arith_float_r_eq, as_float_floated. reflexivity.
Qed.

End Floated.

Lemma py_sub_float_result (a b v : num) :
  is_float a -> py_sub a b = Ok v -> is_float v.
Proof.
  intros H. apply arith_float_l_float; [ | exact H ].
  intros x y v0. apply Ok_float.
Qed.

Lemma py_floordiv_float_result (a b v : num) :
  is_float a -> py_floordiv a b = Ok v -> is_float v.
Proof.
  intros H. apply arith_float_l_float; [ | exact H ].
  intros x y v0. unfold float_floor_div.
  destruct (y =? 0)%float; [ discriminate | apply Ok_float ].
Qed.

Lemma py_pow2_float_result (a v : num) :
  is_float a -> py_pow2 a = Ok v -> is_float v.
Proof.
  intros [x ->]. cbn [py_pow2].
  destruct (pow2_overflows x); [ discriminate | apply Ok_float ].
Qed.

(** One step of a method body on a float value at hand: either it raises on
    both sides, or it returns the same float on both sides. *)
Ltac same_float_step lem :=
  match goal with
  | |- bind ?c _ = bind ?c _ =>
      let v := fresh "v" in
      let E := fresh "E" in
      let f := fresh "f" in
      destruct c as [v|] eqn:E; cbn [bind]; [ | reflexivity ];
      assert (is_float v) as [f ->]
        by (eapply lem; try exact E;
            first [ eexists; reflexivity
                  | left; eexists; reflexivity
                  | right; eexists; reflexivity ])
  end.

Lemma floated_distance (a : num) (t t' : Training) :
  action t = a -> action t' = floated a ->
  LEN_STEP t = PyFloat 0.65 -> LEN_STEP t' = PyFloat 0.65 ->
  get_distance t' = get_distance t.
Proof.
  intros Ha Ha' Hl Hl'. unfold get_distance. rewrite Ha, Ha', Hl, Hl'.
  unfold py_mul. rewrite arith_floated_l by (eexists; reflexivity). reflexivity.
Qed.

Lemma floated_running (a d w c s : num) :
  let r := Running a d w c s in
  let r' := Running (floated a) (floated d) (floated w) (floated c) (floated s) in
  get_distance r' = get_distance r /\
  get_mean_speed r' = get_mean_speed r /\
  get_spent_calories r' = get_spent_calories r.
Proof.
  intros r r'.
  assert (D : get_distance r' = get_distance r)
    by (apply (floated_distance a); reflexivity).
  assert (V : get_mean_speed r' = get_mean_speed r).
  { cbn [get_mean_speed r r']. unfold Training_get_mean_speed. fold r r'.
    rewrite D. cbn [duration_of r r'].
    destruct (get_distance r) as [s0|] eqn:E; cbn [bind]; [ | reflexivity ].
    apply arith_floated_r, (get_distance_float r s0 E). }
  split; [ exact D | ]. split; [ exact V | ].
  cbn [get_spent_calories r r']. fold r r'. rewrite V.
  destruct (get_mean_speed r) as [v|] eqn:Ev; cbn [bind]; [ | reflexivity ].
  destruct (proj1 (get_mean_speed_float r v Ev)) as [fv ->].
  unfold py_mul at 1. rewrite arith_floated_l by (eexists; reflexivity).
  fold py_mul. same_float_step py_mul_float_result.
  unfold py_sub at 1. rewrite arith_floated_r by (eexists; reflexivity).
  fold py_sub. same_float_step py_sub_float_result.
  unfold py_mul at 1. rewrite arith_floated_r by (eexists; reflexivity).
  fold py_mul. same_float_step py_mul_float_result.
  same_float_step py_truediv_float.
  unfold py_mul at 1. rewrite arith_floated_r by (eexists; reflexivity).
  fold py_mul. reflexivity.
Qed.

Lemma floated_sports_walking (a d w h : num) :
  let r := SportsWalking a d w h in
  let r' := SportsWalking (floated a) (floated d) (floated w) (floated h) in
  get_distance r' = get_distance r /\
  get_mean_speed r' = get_mean_speed r /\
  get_spent_calories r' = get_spent_calories r.
Proof.
  intros r r'.
  assert (D : get_distance r' = get_distance r)
    by (apply (floated_distance a); reflexivity).
  assert (V : get_mean_speed r' = get_mean_speed r).
  { cbn [get_mean_speed r r']. unfold Training_get_mean_speed. fold r r'.
    rewrite D. cbn [duration_of r r'].
    destruct (get_distance r) as [s0|] eqn:E; cbn [bind]; [ | reflexivity ].
    apply arith_floated_r, (get_distance_float r s0 E). }
  split; [ exact D | ]. split; [ exact V | ].
  cbn [get_spent_calories r r']. fold r r'. rewrite V. unfold COEFF_OF_WEIGHT.
  unfold py_mul at 1. rewrite arith_floated_r by (eexists; reflexivity).
  fold py_mul. same_float_step py_mul_float_result.
  destruct (get_mean_speed r) as [v|] eqn:Ev; cbn [bind]; [ | reflexivity ].
  destruct (proj1 (get_mean_speed_float r v Ev)) as [fv ->].
  destruct (py_pow2 (PyFloat fv)) as [y1|] eqn:E1; cbn [bind]; [ | reflexivity ].
  destruct (py_pow2_float_result _ y1 ltac:(eexists; reflexivity) E1) as [f1 ->].
  unfold py_floordiv at 1. rewrite arith_floated_r by (eexists; reflexivity).
  fold py_floordiv. same_float_step py_floordiv_float_result.
  same_float_step py_mul_float_result.
  unfold py_mul at 1. rewrite arith_floated_r by (eexists; reflexivity).
  fold py_mul. same_float_step py_mul_float_result.
  same_float_step py_add_float_result.
  unfold py_mul at 1. rewrite arith_floated_r by (eexists; reflexivity).
  fold py_mul. reflexivity.
Qed.

(** The message depends on the duration through its float only. *)
Lemma floated_message (t t' : Training) :
  class_name t' = class_name t ->
  duration_of t' = floated (duration_of t) ->
  get_distance t' = get_distance t ->
  get_mean_speed t' = get_mean_speed t ->
  get_spent_calories t' = get_spent_calories t ->
  message_of t' = message_of t.
Proof.
  intros Hc Hd D V C. unfold message_of, show_training_info.
  rewrite Hc, Hd, D, V, C.
  destruct (get_distance t) as [s|]; cbn [bind]; [ | reflexivity ].
  destruct (get_mean_speed t) as [v|]; cbn [bind]; [ | reflexivity ].
  destruct (get_spent_calories t) as [c|]; cbn [bind]; [ | reflexivity ].
  unfold get_message, format_3f.
  cbn [training_type duration distance speed calories].
  rewrite as_float_floated. reflexivity.
Qed.

(** X10: for running and sports walking it makes no difference whether a
    reading comes as an int or as the float it converts to: distance, mean
    speed, spent calories, every error and the message are the same.  It is
    not so for swimming, where an int pool length and an int lap count are
    multiplied exactly. *)
Theorem int_and_float_readings_agree :
  (forall a d w c s : num,
      let r := Running a d w c s in
      let r' := Running (floated a) (floated d) (floated w) (floated c) (floated s) in
      get_distance r' = get_distance r /\
      get_mean_speed r' = get_mean_speed r /\
      get_spent_calories r' = get_spent_calories r /\
      message_of r' = message_of r) /\
  (forall a d w h : num,
      let r := SportsWalking a d w h in
      let r' := SportsWalking (floated a) (floated d) (floated w) (floated h) in
      get_distance r' = get_distance r /\
      get_mean_speed r' = get_mean_speed r /\
      get_spent_calories r' = get_spent_calories r /\
      message_of r' = message_of r) /\
  floated (PyInt 15000) = PyFloat 15000 /\
  (get_mean_speed
     (Swimming (PyInt 720) (PyInt 1) (PyInt 80)
        (PyInt 9007199254740993) (PyInt 3) (PyFloat 1.38) (PyFloat 1.1) (PyInt 2))
   = Ok (PyFloat 27021597764222.98) /\
   get_mean_speed
     (Swimming (PyInt 720) (PyInt 1) (PyInt 80)
        (floated (PyInt 9007199254740993)) (floated (PyInt 3))
        (PyFloat 1.38) (PyFloat 1.1) (PyInt 2))
   = Ok (PyFloat 27021597764222.977)).
Proof.
  split; [ | split; [ | split ] ].
  - intros a d w c s r r'.
    destruct (floated_running a d w c s) as (D & V & C).
    repeat (split; [ assumption | ]).
    apply floated_message; try assumption; reflexivity.
  - intros a d w h r r'.
    destruct (floated_sports_walking a d w h) as (D & V & C).
    repeat (split; [ assumption | ]).
    apply floated_message; try assumption; reflexivity.
  - reflexivity.
  - split; reflexivity.
Qed.

(** ** Int readings below 2^53: no fault *)

Local Close Scope string_scope.

Lemma normal_float_weaken (f : float) (lo hi lo' hi' : Z) :
  normal_float f lo hi -> lo' <= lo -> hi <= hi' -> normal_float f lo' hi'.
Proof.
  intros (s & m & e & Sf & Hd & He) Hlo Hhi. exists s, m, e.
  repeat split; try assumption; lia.
Qed.

Lemma not_infinite (f : float) :
  (forall s, Prim2SF f <> S754_infinity s) -> is_inf f = false.
Proof.
  intros H. unfold is_inf, is_infinity. rewrite FloatAxioms.eqb_spec, abs_spec.
  destruct (Prim2SF f) as [s | s | | s m e]; try reflexivity.
  exfalso. apply (H s). reflexivity.
Qed.

Lemma normal_not_zero (f : float) (lo hi : Z) :
  normal_float f lo hi -> (f =? 0)%float = false.
Proof.
  intros (s & m & e & Sf & _). rewrite FloatAxioms.eqb_spec, Sf.
  destruct s; reflexivity.
Qed.

(** The float of a small int: a zero, or a normal float with an exponent
    between -52 and 0 and the sign of the int. *)
Lemma small_int_float (z : Z) :
  Z.abs z < 2 ^ 53 ->
  exists f : float,
    int_to_float z = Ok f /\
    ((z = 0 /\ f = 0%float)
     \/ (z <> 0 /\ exists m, Prim2SF f = S754_finite (z <? 0) m (digits z - 53)
                             /\ digits (Z.pos m) = 53
                             /\ -52 <= digits z - 53 <= 0)).
Proof.
  intros Hz. destruct (Z.eq_dec z 0) as [-> | Hnz].
  - exists 0%float. split; [ reflexivity | left; split; reflexivity ].
  - destruct (int_to_float_small z Hnz Hz) as (f & m & Hf & Sf & _ & Hd).
    exists f. split; [ exact Hf | right ]. split; [ exact Hnz | ].
    exists m. repeat split; try assumption.
    + pose proof (proj2 (digits_pos_iff z) Hnz). lia.
    + assert (digits z <= 53); [ | lia ].
      rewrite <- digits_abs. apply digits_le; lia.
Qed.

Lemma mul_LEN_STEP_normal (f : float) (lo hi : Z) :
  normal_float f lo hi -> -900 <= lo -> hi <= 900 ->
  normal_float (f * 0.65) (lo - 1) (hi + 1).
Proof.
  intros (s & m & e & Sf & Hd & He) Hlo Hhi.
  destruct (mul_LEN_STEP_scale s m e 0 Hd ltac:(lia) ltac:(lia) ltac:(lia))
    as (m' & e' & Hd' & He' & E & _).
  exists s, m', e'. rewrite mul_spec, Sf, Prim2SF_LEN_STEP, E.
  repeat split; try assumption; lia.
Qed.

Lemma div_M_IN_KM_normal (f : float) (lo hi : Z) :
  normal_float f lo hi -> -900 <= lo -> hi <= 900 ->
  normal_float (f / 1000) (lo - 10) (hi - 8).
Proof.
  intros (s & m & e & Sf & Hd & He) Hlo Hhi.
  destruct (div_M_IN_KM_scale s m e 0 Hd ltac:(lia) ltac:(lia) ltac:(lia))
    as (m' & e' & Hd' & He' & E & _).
  exists s, m', e'. rewrite div_spec, Sf, Prim2SF_M_IN_KM, E.
  repeat split; try assumption; lia.
Qed.

(** The quotient of two normal floats. *)
Lemma div_normal (x y : float) (lo1 hi1 lo2 hi2 : Z) :
  normal_float x lo1 hi1 -> normal_float y lo2 hi2 ->
  -400 <= lo1 -> hi1 <= 400 -> -400 <= lo2 -> hi2 <= 400 ->
  normal_float (x / y) (lo1 - hi2 - 53) (hi1 - lo2 - 51).
Proof.
  intros (s1 & m1 & e1 & S1 & Hd1 & He1) (s2 & m2 & e2 & S2 & Hd2 & He2) ? ? ? ?.
  pose proof (mantissa_bounds m1 Hd1) as Hm1.
  pose proof (mantissa_bounds m2 Hd2) as Hm2.
  assert (Hcore : SFdiv_core_binary prec emax (Z.pos m1) e1 (Z.pos m2) e2
                  = (Z.pos m1 * 2 ^ 53 / Z.pos m2, e1 - e2 - 53,
                     new_location (Z.pos m2) ((Z.pos m1 * 2 ^ 53) mod Z.pos m2))).
  { unfold SFdiv_core_binary. rewrite Hd1, Hd2.
    replace (Z.min (fexp prec emax (53 + e1 - (53 + e2))) (e1 - e2))
      with (e1 - e2 - 53) by (unfold fexp, SpecFloat.emin, prec, emax; lia).
    replace (e1 - e2 - (e1 - e2 - 53)) with 53 by lia.
    rewrite Z.shiftl_mul_pow2 by lia.
    unfold Z.div, Z.modulo.
    destruct (Z.div_eucl (Z.pos m1 * 2 ^ 53) (Z.pos m2)) as [q r]. reflexivity. }
  set (q := Z.pos m1 * 2 ^ 53 / Z.pos m2) in *.
  assert (Hq : 2 ^ 52 <= q < 2 ^ 54).
  { unfold q. change (2 ^ 52) with 4503599627370496 in *.
    change (2 ^ 53) with 9007199254740992 in *.
    change (2 ^ 54) with 18014398509481984. split.
    - apply Z.div_le_lower_bound; nia.
    - apply Z.div_lt_upper_bound; nia. }
  assert (Hdq : 53 <= digits q <= 54).
  { split; [ apply (digits_ge q 52); lia | apply (digits_le q 54); lia ]. }
  destruct (binary_round_aux_normal (xorb s1 s2) q (e1 - e2 - 53)
              (new_location (Z.pos m2) ((Z.pos m1 * 2 ^ 53) mod Z.pos m2))
              ltac:(lia) ltac:(lia) ltac:(lia)) as (m3 & _ & Hd3 & Hn & E).
  set (n := snd (rounded_mantissa q _)) in *.
  destruct (Z.leb_spec (e1 - e2 - 53 + n) 971); [ | lia ].
  exists (xorb s1 s2), m3, (e1 - e2 - 53 + n).
  rewrite div_spec, S1, S2. unfold SF64div. cbn [SFdiv]. rewrite Hcore, E.
  repeat split; try assumption; lia.
Qed.

(** The square of a normal float of moderate exponent is finite. *)
Lemma square_normal (x : float) (lo hi : Z) :
  normal_float x lo hi -> -400 <= lo -> hi <= 400 ->
  pow2_overflows x = false.
Proof.
  intros (s & m & e & Sx & Hd & He) Hlo Hhi.
  pose proof (mantissa_bounds m Hd) as Hm.
  set (P := Z.pos (m * m)).
  assert (HP : P = Z.pos m * Z.pos m) by reflexivity.
  assert (HdP : 105 <= digits P <= 106).
  { split.
    - apply (digits_ge P 104); [ lia | ]. change (2 ^ 104) with (2 ^ 52 * 2 ^ 52). nia.
    - apply (digits_le P 106); [ lia | lia | ].
      change (2 ^ 106) with (2 ^ 53 * 2 ^ 53). nia. }
  destruct (binary_round_aux_normal (xorb s s) P (e + e) loc_Exact
              ltac:(lia) ltac:(lia) ltac:(lia)) as (m3 & _ & _ & Hn & E).
  set (n := snd (rounded_mantissa P loc_Exact)) in *.
  destruct (Z.leb_spec (e + e + n) 971); [ | lia ].
  unfold pow2_overflows. rewrite (not_infinite (x * x)); [ reflexivity | ].
  intros s0. rewrite mul_spec, Sx. unfold SF64mul. cbn [SFmul]. fold P.
  rewrite E. discriminate.
Qed.

(** The square of a zero is a zero. *)
Lemma square_zero (x : float) : zero_float x -> pow2_overflows x = false.
Proof.
  intros [s Sx]. unfold pow2_overflows.
  rewrite (not_infinite (x * x)); [ reflexivity | ].
  intros s0. rewrite mul_spec, Sx. discriminate.
Qed.

(** A zero over a normal float is a zero. *)
Lemma zero_div_normal (y : float) (lo hi : Z) :
  normal_float y lo hi -> zero_float (0 / y).
Proof.
  intros (s & m & e & Sy & _). exists (xorb false s).
  rewrite div_spec, Sy. reflexivity.
Qed.

(** The walking speed of small int readings can be squared. *)
Lemma small_int_speed_squares (a d : Z) (fa fd : float) :
  Z.abs a < 2 ^ 53 -> Z.abs d < 2 ^ 53 -> d <> 0 ->
  int_to_float a = Ok fa -> int_to_float d = Ok fd ->
  pow2_overflows (fa * 0.65 / 1000 / fd) = false.
Proof.
  intros Ha Hd Hnz Hfa Hfd.
  destruct (small_int_float d Hd) as (fd' & Hfd' & [[Hd0 _] | (_ & md & Sd & Hdd & Hed)]);
    [ contradiction | ].
  assert (fd' = fd) by (apply Ok_inj; congruence). subst fd'.
  assert (Nd : normal_float fd (-52) 0) by (exists (d <? 0), md, (digits d - 53); auto).
  destruct (small_int_float a Ha) as (fa' & Hfa' & [[Ha0 Hf0] | (_ & ma & Sa & Hda & Hea)]);
    assert (fa' = fa) by (apply Ok_inj; congruence); subst fa'.
  - subst fa. change (0 * 0.65 / 1000)%float with 0%float.
    apply square_zero, (zero_div_normal fd _ _ Nd).
  - assert (Na : normal_float fa (-52) 0) by (exists (a <? 0), ma, (digits a - 53); auto).
    pose proof (mul_LEN_STEP_normal fa _ _ Na ltac:(lia) ltac:(lia)) as N1.
    pose proof (div_M_IN_KM_normal _ _ _ N1 ltac:(lia) ltac:(lia)) as N2.
    pose proof (div_normal _ fd _ _ _ _ N2 Nd
                  ltac:(lia) ltac:(lia) ltac:(lia) ltac:(lia)) as N3.
    apply (square_normal _ _ _ N3); lia.
Qed.

(** [int / 1000] returns for an int below [2^106]. *)
Lemma int_true_divide_by_1000 (x : Z) :
  Z.abs x < 2 ^ 106 -> exists q : float, int_true_divide x 1000 = Ok (PyFloat q).
Proof.
  intros Hx. unfold int_true_divide. cbn [Z.eqb].
  destruct (Z.eqb_spec x 0) as [-> | Hnz]; [ eexists; reflexivity | ].
  set (ax := Z.abs x). assert (Hax : 0 < ax) by (unfold ax; lia).
  assert (Hdx : 1 <= digits ax <= 106).
  { split.
    - pose proof (proj2 (digits_pos_iff ax) ltac:(lia)). lia.
    - apply digits_le; unfold ax; lia. }
  pose proof (digits_bounds ax Hax) as Hbx.
  assert (Hcore : exists q e l,
            SFdiv_core_binary prec emax ax 0 (Z.abs 1000) 0 = (q, e, l)
            /\ 2 ^ 52 <= q < 2 ^ 106 /\ -62 <= e <= 0).
  { unfold SFdiv_core_binary. change (Z.abs 1000) with 1000.
    change (digits 1000) with 10.
    replace (Z.min (fexp prec emax (digits ax + 0 - (10 + 0))) (0 - 0))
      with (Z.min (digits ax - 63) 0)
      by (unfold fexp, SpecFloat.emin, prec, emax; lia).
    destruct (Z.le_gt_cases 63 (digits ax)) as [Hge | Hlt].
    - rewrite Z.min_r by lia. cbn [Z.sub Z.opp Z.add].
      assert (2 ^ 62 <= ax).
      { eapply Z.le_trans; [ | exact (proj1 Hbx) ]. apply Z.pow_le_mono_r; lia. }
      pose proof (Zdiv.Z_div_mod ax 1000 ltac:(lia)) as Hdm.
      destruct (Z.div_eucl ax 1000) as [q r].
      exists q, 0, (new_location 1000 r). split; [ reflexivity | ].
      change (2 ^ 62) with 4611686018427387904 in *.
      change (2 ^ 52) with 4503599627370496.
      split; [ lia | lia ].
    - rewrite Z.min_l by lia.
      replace (0 - 0 - (digits ax - 63)) with (63 - digits ax) by lia.
      destruct (63 - digits ax) as [|s|s] eqn:Es; try lia.
      rewrite Z.shiftl_mul_pow2 by lia.
      assert (Hm' : 2 ^ 62 <= ax * 2 ^ Z.pos s < 2 ^ 63).
      { pose proof (digits_bounds (ax * 2 ^ Z.pos s)
                      ltac:(assert (0 < 2 ^ Z.pos s) by (apply Z.pow_pos_nonneg; lia); nia))
          as Hb.
        rewrite digits_mul_pow2 in Hb by lia.
        replace (digits ax + Z.pos s) with 63 in Hb by lia. exact Hb. }
      pose proof (Zdiv.Z_div_mod (ax * 2 ^ Z.pos s) 1000 ltac:(lia)) as Hdm.
      destruct (Z.div_eucl (ax * 2 ^ Z.pos s) 1000) as [q r].
      exists q, (digits ax - 63), (new_location 1000 r). split; [ reflexivity | ].
      change (2 ^ 62) with 4611686018427387904 in *.
      change (2 ^ 63) with 9223372036854775808 in *.
      change (2 ^ 52) with 4503599627370496.
      assert (0 < 2 ^ 106) by (apply Z.pow_pos_nonneg; lia).
      assert (9223372036854775808 <= 2 ^ 106)
        by (change 9223372036854775808 with (2 ^ 63); apply Z.pow_le_mono_r; lia).
      split; [ lia | lia ]. }
  destruct Hcore as (q & e & l & -> & Hq & He).
  assert (Hdq : 53 <= digits q <= 106).
  { split; [ apply (digits_ge q 52); lia | apply (digits_le q 106); lia ]. }
  destruct (binary_round_aux_normal (xorb (x <? 0) (1000 <? 0)) q e l
              ltac:(lia) ltac:(lia) ltac:(lia)) as (m3 & _ & Hd3 & Hn & ->).
  set (n := snd (rounded_mantissa q l)) in *.
  destruct (Z.leb_spec (e + n) 971); [ | lia ].
  rewrite finite_not_inf by (apply normal_valid; [ exact Hd3 | lia ]).
  eexists. reflexivity.
Qed.

Local Open Scope string_scope.

Lemma small_int_returns (v : num) : small_int v -> returns (as_float v).
Proof.
  intros (z & -> & Hz). destruct (small_int_float z Hz) as (f & Hf & _).
  exists f. exact Hf.
Qed.

Lemma float_returns (v : num) : is_float v -> returns (as_float v).
Proof. intros [f ->]. exists f. reflexivity. Qed.

Lemma small_int_literal (z : Z) : (Z.abs z <? 2 ^ 53)%Z = true -> small_int (PyInt z).
Proof. intros H. exists z. split; [ reflexivity | apply Z.ltb_lt, H ]. Qed.

(** A summary that is returned is formatted. *)
Lemma message_returns (t : Training) (s v c : num) :
  get_distance t = Ok s -> get_mean_speed t = Ok v -> get_spent_calories t = Ok c ->
  returns (message_of t).
Proof.
  intros Hs Hv Hc. unfold message_of.
  pose proof (show_training_info_returns t s v c Hs Hv Hc) as Hinfo.
  destruct (summary_message t _ Hinfo) as (fd & fs & fv & fc & _ & _ & _ & _ & _ & Hm).
  rewrite Hinfo. cbn [bind]. rewrite Hm. eexists. reflexivity.
Qed.

Lemma running_small (a d w c s : num) :
  returns (as_float a) -> returns (as_float d) -> returns (as_float w) ->
  returns (as_float c) -> returns (as_float s) -> is_zero d = false ->
  returns (message_of (Running a d w c s)).
Proof.
  intros [fa Ha] [fd Hd] [fw Hw] [fc Hc] [fs Hs] Hnz.
  destruct (running_calories a d w c s fa fd fw fc fs Ha Hd Hw Hc Hs
              (as_float_nonzero d fd Hd Hnz)) as (H1 & H2 & H3).
  exact (message_returns _ _ _ _ H1 H2 H3).
Qed.

Lemma sports_walking_small (a d w h : num) :
  small_int a -> small_int d -> returns (as_float w) -> returns (as_float h) ->
  is_zero d = false -> is_zero h = false ->
  returns (message_of (SportsWalking a d w h)).
Proof.
  intros (za & -> & Hza) (zd & -> & Hzd) [fw Hw] [fh Hh] Hnzd Hnzh.
  destruct (small_int_float za Hza) as (fa & Ha & _).
  destruct (small_int_float zd Hzd) as (fd & Hd & _).
  assert (zd <> 0) by (apply Z.eqb_neq; exact Hnzd).
  destruct (sports_walking_calories (PyInt za) (PyInt zd) w h fa fd fw fh
              Ha Hd Hw Hh (as_float_nonzero (PyInt zd) fd Hd Hnzd)
              (as_float_nonzero h fh Hh Hnzh)
              (small_int_speed_squares za zd fa fd Hza Hzd ltac:(assumption) Ha Hd))
    as (H1 & H2 & H3).
  exact (message_returns _ _ _ _ H1 H2 H3).
Qed.

Local Close Scope string_scope.

(** The product of two small ints, in kilometres. *)
Lemma small_product_km (x y : num) :
  small_int x -> small_int y ->
  exists (p : num) (q : float),
    py_mul x y = Ok p /\ py_truediv p (PyInt 1000) = Ok (PyFloat q).
Proof.
  intros (zx & -> & Hx) (zy & -> & Hy).
  destruct (int_true_divide_by_1000 (zx * zy)) as [q Hq].
  { rewrite Z.abs_mul. change (2 ^ 106) with (2 ^ 53 * 2 ^ 53).
    apply Z.mul_lt_mono_nonneg; lia. }
  exists (PyInt (zx * zy)), q. split; [ reflexivity | exact Hq ].
Qed.

Local Open Scope string_scope.

Lemma swimming_small (a d w l n ls cs cw : num) :
  small_int a -> small_int l -> small_int n ->
  small_int ls \/ is_float ls ->
  returns (as_float d) -> returns (as_float w) ->
  returns (as_float cs) -> returns (as_float cw) -> is_zero d = false ->
  returns (message_of (Swimming a d w l n ls cs cw)).
Proof.
  intros Sa Sl Sn Sls [fd Hd] [fw Hw] [fcs Hcs] [fcw Hcw] Hnz.
  destruct (small_product_km l n Sl Sn) as (p & q & Hp & Hq).
  destruct (swimming_calories a d w l n ls cs cw p q fd fw fcs fcw Hp Hq Hd Hw Hcs Hcw
              (as_float_nonzero d fd Hd Hnz)) as (H2 & H3).
  assert (H1 : returns (get_distance (Swimming a d w l n ls cs cw))).
  { unfold get_distance. cbn [action LEN_STEP].
    destruct Sls as [Sls | [fls ->]].
    - destruct (small_product_km a ls Sa Sls) as (p' & q' & Hp' & Hq').
      rewrite Hp'. cbn [bind]. unfold M_IN_KM. rewrite Hq'. eexists. reflexivity.
    - destruct (small_int_returns a Sa) as [fa Ha].
      rewrite (base_distance a fa fls Ha). eexists. reflexivity. }
  destruct H1 as [s H1].
  exact (message_returns _ _ _ _ H1 H2 H3).
Qed.

Ltac small_fields :=
  repeat match goal with
         | H : Forall small_int (_ :: _) |- _ =>
             let H1 := fresh "S" in let H2 := fresh "R" in
             apply Forall_cons_iff in H; destruct H as [H1 H2]
         end.

Ltac small_field :=
  first [ assumption
        | apply small_int_returns; assumption
        | apply small_int_returns, small_int_literal; reflexivity
        | apply float_returns; eexists; reflexivity
        | left; assumption
        | right; eexists; reflexivity ].

(** X11: int readings below 2^53 in magnitude never make a fault: with a
    nonzero duration (and, for walking, a nonzero height), every record that
    [read_package] builds from them is summarized and formatted without any
    error, whatever the code and the number of readings accepted. *)
Theorem small_int_readings_never_fault :
  forall (code : string) (data : list num) (t : Training),
    read_package code data = Ok t ->
    Forall small_int data ->
    nonzero_divisors t ->
    returns (show_training_info t) /\ returns (message_of t).
Proof.
  intros code data t H Hsmall [Hd Hh].
  assert (Hm : returns (message_of t)).
  { destruct (read_package_cases code data)
      as [[-> E] | [[-> E] | [[-> E] | [_ E]]]]; rewrite E in H; clear E.
    - do 9 (try destruct data as [|? data]); vm_compute in H; try discriminate;
        apply Ok_inj in H; subst t; small_fields; cbn [duration_of] in Hd;
        apply swimming_small; small_field.
    - do 6 (try destruct data as [|? data]); vm_compute in H; try discriminate;
        apply Ok_inj in H; subst t; small_fields; cbn [duration_of] in Hd;
        apply running_small; small_field.
    - do 5 (try destruct data as [|? data]); vm_compute in H; try discriminate;
        apply Ok_inj in H; subst t; small_fields; cbn [duration_of] in Hd;
        apply sports_walking_small; small_field.
    - discriminate. }
  split; [ | exact Hm ].
  unfold message_of in Hm. destruct Hm as [m Hm].
  destruct (show_training_info t) as [info|e]; [ eexists; reflexivity | discriminate ].
Qed.

Lemma small_int_readings_never_fault_witness :
  returns (show_training_info run_scenario) /\ returns (message_of run_scenario).
Proof.
  apply (small_int_readings_never_fault "RUN" [PyInt 15000; PyInt 1; PyInt 75]).
  - reflexivity.
  - repeat constructor; apply small_int_literal; reflexivity.
  - split; [ reflexivity | exact I ].
Defined.

(** ** The sign of the distance *)

Local Close Scope string_scope.

(** The distance of a nonzero small step count: a normal float with the sign
    of the count. *)
Lemma small_distance_float (a : Z) (fa : float) :
  a <> 0 -> Z.abs a < 2 ^ 53 -> int_to_float a = Ok fa ->
  exists (m : positive) (e : Z),
    Prim2SF (fa * 0.65 / 1000) = S754_finite (a <? 0) m e.
Proof.
  intros Hnz Ha Hfa.
  destruct (small_int_float a Ha) as (fa' & Hfa' & [[H0 _] | (_ & ma & Sa & Hda & Hea)]);
    [ contradiction | ].
  assert (fa' = fa) by (apply Ok_inj; congruence). subst fa'.
  destruct (mul_LEN_STEP_scale (a <? 0) ma (digits a - 53) 0 Hda
              ltac:(lia) ltac:(lia) ltac:(lia)) as (m1 & e1 & Hd1 & He1 & E1 & _).
  destruct (div_M_IN_KM_scale (a <? 0) m1 e1 0 Hd1
              ltac:(lia) ltac:(lia) ltac:(lia)) as (m2 & e2 & _ & _ & E2 & _).
  exists m2, e2.
  rewrite div_spec, mul_spec, Sa, Prim2SF_LEN_STEP, E1, Prim2SF_M_IN_KM, E2.
  reflexivity.
Qed.

Local Open Scope string_scope.

(** X12: the distance keeps the sign of the step count.  For an int count
    below 2^53 in magnitude and the step length 0.65 of [Training] (every
    record that is not a swimming one), [get_distance] returns a float that
    is zero exactly when the count is zero, negative exactly when it is
    negative and positive exactly when it is positive: the two roundings
    never lose a nonzero count. *)
Theorem distance_keeps_sign :
  forall (a : Z) (t : Training),
    action t = PyInt a -> LEN_STEP t = PyFloat 0.65 -> (Z.abs a < 2 ^ 53)%Z ->
    exists s : float,
      get_distance t = Ok (PyFloat s) /\
      (s =? 0)%float = (a =? 0)%Z /\
      (s <? 0)%float = (a <? 0)%Z /\
      (0 <? s)%float = (0 <? a)%Z.
Proof.
  intros a t Hact Hlen Ha.
  destruct (small_int_float a Ha) as (fa & Hfa & Hcases).
  exists (fa * 0.65 / 1000)%float. split.
  { unfold get_distance. rewrite Hact, Hlen. apply base_distance. exact Hfa. }
  destruct Hcases as [[-> ->] | (Hnz & _)].
  - repeat split; reflexivity.
  - destruct (small_distance_float a fa Hnz Ha Hfa) as (m & e & Sd).
    rewrite FloatAxioms.eqb_spec, !FloatAxioms.ltb_spec, Sd.
    change (Prim2SF 0) with (S754_zero false).
    destruct (Z.ltb_spec a 0) as [Hneg | Hpos];
      destruct (Z.eqb_spec a 0); destruct (Z.ltb_spec 0 a); try lia;
      repeat split; reflexivity.
Qed.

Lemma distance_keeps_sign_witness :
  exists s : float,
    get_distance run_scenario = Ok (PyFloat s) /\
    (s =? 0)%float = (15000 =? 0)%Z /\
    (s <? 0)%float = (15000 <? 0)%Z /\
    (0 <? s)%float = (0 <? 15000)%Z.
Proof.
  apply (distance_keeps_sign 15000 run_scenario); [ reflexivity | reflexivity | ].
  reflexivity.
Defined.
